(** * The mode-gated embedding variable of sparse_operation_kit

    Shallow embedding of
    [sparse_operation_kit/experiment/dynamic_variable.py]: the class
    [DynamicVariable], which toggles between the framework's dense
    variable ("static" mode) and the native key-value store ("dynamic"
    mode), and the free functions [export] and [assign].

    The class is glue code.  Everything it calls in the host framework
    (the [ResourceVariable] base class, tensor helpers) and in the native
    op module ([raw_ops]) is kept abstract behind the interface
    [Backend]; the theorems hold for every implementation of it. *)

From Stdlib Require Import ZArith String Ascii List Bool Lia DecimalString.
Import ListNotations.
Local Open Scope string_scope.
Local Open Scope Z_scope.

(** ** Python values *)

(** A [tf.DType] is identified by its name. *)
Definition DType := string.
Definition tf_int32 : DType := "int32".
Definition tf_int64 : DType := "int64".
Definition tf_float32 : DType := "float32".

(** A resource handle is a Python object; [is] compares identities. *)
Definition Handle := nat.

(** The values that flow through the adapter.  Tensors are opaque: a
    dtype and the identity of the node that produced them. *)
Inductive PyVal :=
| PyNone
| PyBool (b : bool)
| PyInt (z : Z)
| PyStr (s : string)
| PyTensor (dtype : DType) (node : nat)
| PyIndexedSlices (values indices dense_shape : PyVal)
| PyTensorShape (dims : list (option Z)).

(** [*args, **kwargs] *)
Record Arguments := { positional : list PyVal; keywords : list (string * PyVal) }.
Definition no_args : Arguments := {| positional := []; keywords := [] |}.
Definition args (l : list PyVal) : Arguments := {| positional := l; keywords := [] |}.

Definition is_None (v : PyVal) : bool :=
  match v with PyNone => true | _ => false end.

(** [isinstance(v, ops.IndexedSlices)] *)
Definition is_IndexedSlices (v : PyVal) : bool :=
  match v with PyIndexedSlices _ _ _ => true | _ => false end.

Definition type_name (v : PyVal) : string :=
  match v with
  | PyNone => "NoneType"
  | PyBool _ => "bool"
  | PyInt _ => "int"
  | PyStr _ => "str"
  | PyTensor _ _ => "Tensor"
  | PyIndexedSlices _ _ _ => "IndexedSlices"
  | PyTensorShape _ => "TensorShape"
  end.

(** ** Exceptions and outcomes *)

(** What escapes from the framework or the native layer is carried
    through untouched; it is tagged [Foreign] so that the adapter's own
    [raise] statements can be told apart from it. *)
Definition ForeignError := string.

Inductive Exn :=
| RuntimeError (msg : string)
| TypeError (msg : string)
| NotImplementedError (msg : string)
| AttributeError (msg : string)
| IndexError (msg : string)
| ValueError (msg : string)
| Foreign (e : ForeignError).

Inductive Outcome (A : Type) :=
| Ok (a : A)
| Raise (e : Exn).
Arguments Ok {A} a.
Arguments Raise {A} e.

(** A Python call: it may mutate the state and then return or raise.
    The mutations made before a [raise] stay. *)
Definition M (S A : Type) := S -> Outcome A * S.

Definition ret {S A} (a : A) : M S A := fun s => (Ok a, s).
Definition raise {S A} (e : Exn) : M S A := fun s => (Raise e, s).
Definition bind {S A B} (m : M S A) (k : A -> M S B) : M S B :=
  fun s => match m s with
           | (Ok a, s') => k a s'
           | (Raise e, s') => (Raise e, s')
           end.

Declare Scope py_scope.
Delimit Scope py_scope with py.
Notation "x <- m ;; k" := (bind m (fun x => k))
  (at level 61, m at next level, right associativity) : py_scope.
Notation "m ;; k" := (bind m (fun _ => k))
  (at level 61, right associativity) : py_scope.
Local Open Scope py_scope.

(** What an external call answers: a value, or an error of its own. *)
Inductive Reply (A : Type) :=
| Returns (a : A)
| Throws (e : ForeignError).
Arguments Returns {A} a.
Arguments Throws {A} e.

Definition External (W A : Type) := W -> Reply A * W.

Definition of_reply {A} (r : Reply A) : Outcome A :=
  match r with
  | Returns a => Ok a
  | Throws e => Raise (Foreign e)
  end.

(** An external call seen as a Python call on the world alone. *)
Definition foreign {W A} (f : External W A) : M W A :=
  fun w => let (r, w') := f w in (of_reply r, w').

(** ** Strings: [str.split], [%d], decimal literals *)

(** [s.split(sep)] for a one-character separator. *)
Fixpoint split (sep : ascii) (s : string) : list string :=
  match s with
  | EmptyString => [EmptyString]
  | String c rest =>
      if Ascii.eqb c sep then EmptyString :: split sep rest
      else match split sep rest with
           | [] => [String c EmptyString]
           | field :: fields => String c field :: fields
           end
  end.

(** The ASCII whitespace that may surround a literal: tab to carriage
    return, and the space. *)
Definition is_space (c : ascii) : bool :=
  let n := nat_of_ascii c in
  ((9 <=? n) && (n <=? 13) || (n =? 32))%nat.

Definition digit_of (c : ascii) : option Z :=
  let n := nat_of_ascii c in
  if ((48 <=? n) && (n <=? 57))%nat then Some (Z.of_nat n - 48) else None.

Fixpoint lstrip (s : string) : string :=
  match s with
  | String c rest => if is_space c then lstrip rest else s
  | EmptyString => EmptyString
  end.

(** Trailing whitespace is all that may follow the digits. *)
Fixpoint all_space (s : string) : bool :=
  match s with
  | EmptyString => true
  | String c rest => is_space c && all_space rest
  end.

(** The digits of an integer literal, after the first one: single
    underscores may separate digits. [acc] is the value read so far. *)
Fixpoint digits_tail (acc : Z) (s : string) : option Z :=
  match s with
  | EmptyString => Some acc
  | String c rest =>
      match digit_of c with
      | Some d => digits_tail (10 * acc + d) rest
      | None =>
          if Ascii.eqb c "_" then
            match rest with
            | String c' rest' =>
                match digit_of c' with
                | Some d => digits_tail (10 * acc + d) rest'
                | None => None
                end
            | EmptyString => None
            end
          else if all_space s then Some acc else None
      end
  end.

Definition digits (s : string) : option Z :=
  match s with
  | String c rest =>
      match digit_of c with
      | Some d => digits_tail d rest
      | None => None
      end
  | EmptyString => None
  end.

Fixpoint count_digits (s : string) : nat :=
  match s with
  | EmptyString => O
  | String c rest =>
      match digit_of c with
      | Some _ => S (count_digits rest)
      | None => count_digits rest
      end
  end.

(** A reading of decimal literals: optional whitespace around, an
    optional sign, digits with single underscores between them, at most
    4300 digits, all in ASCII.  It is how CPython's [int] reads such
    text; any other text, text outside ASCII included, is refused here.
    Python's [int] itself is a parameter of the development (see
    [Backend]); this reading is what the recording backend below answers
    for it. *)
Definition py_int (s : string) : option Z :=
  if (4300 <? count_digits s)%nat then None
  else
    match lstrip s with
    | String "-" rest => option_map Z.opp (digits rest)
    | String "+" rest => digits rest
    | body => digits body
    end.

Definition hex_digit (n : nat) : ascii :=
  ascii_of_nat (if (n <? 10)%nat then 48 + n else 87 + n).

Definition backslash : ascii := ascii_of_nat 92.
Definition double_quote : ascii := ascii_of_nat 34.

(** [repr(s)] of ASCII text. *)
Fixpoint escaped (quote : ascii) (s : string) : string :=
  match s with
  | EmptyString => EmptyString
  | String c rest =>
      let n := nat_of_ascii c in
      (if Ascii.eqb c backslash then String backslash (String backslash EmptyString)
       else if Ascii.eqb c quote then String backslash (String c EmptyString)
       else if (n =? 9)%nat then String backslash "t"
       else if (n =? 10)%nat then String backslash "n"
       else if (n =? 13)%nat then String backslash "r"
       else if ((n <? 32) || (n =? 127))%nat
            then String backslash
                   (String "x" (String (hex_digit (n / 16))
                                  (String (hex_digit (n mod 16)) EmptyString)))
       else String c EmptyString) ++ escaped quote rest
  end.

Fixpoint contains (c : ascii) (s : string) : bool :=
  match s with
  | EmptyString => false
  | String c' rest => Ascii.eqb c c' || contains c rest
  end.

Definition py_repr (s : string) : string :=
  let quote : ascii :=
    if contains "'" s && negb (contains double_quote s) then double_quote else "'"%char in
  String quote (escaped quote s ++ String quote EmptyString).

(** What the recording backend answers for [int(s)]: the number read,
    or the message of the [ValueError] for an invalid literal. *)
Definition read_int (s : string) : Z + string :=
  match py_int s with
  | Some z => inl z
  | None => inr ("invalid literal for int() with base 10: " ++ py_repr s)
  end.

(** ["%d" % z] *)
Definition percent_d (z : Z) : string := NilZero.string_of_int (Z.to_int z).

(** [str(TensorShape(dims))] *)
Definition str_dim (d : option Z) : string :=
  match d with
  | None => "None"
  | Some n => percent_d n
  end.

Definition str_shape (dims : list (option Z)) : string :=
  match dims with
  | [d] => "(" ++ str_dim d ++ ",)"
  | _ => "(" ++ String.concat ", " (map str_dim dims) ++ ")"
  end.

(** ** The class [DynamicVariable] *)

Module DynamicVariable.

(** The attributes the class keeps on [self].  [_handle] and
    [_initializer_op] belong to the base class and are re-bound by
    [__init__]; the others are the subclass's own. *)
Record t := {
  _key_type : DType;
  _handle_dtype : DType;
  _dimension : Z;
  _indices : PyVal;
  _mode : option string;
  _dummy_name : string;
  _tf_handle : Handle;
  _dummy_handle : Handle;
  _handle : Handle;
  _initializer_op : PyVal
}.

(** [self._indices = v] *)
Definition set_indices (v : PyVal) (self : t) : t :=
  {| _key_type := _key_type self; _handle_dtype := _handle_dtype self;
     _dimension := _dimension self; _indices := v; _mode := _mode self;
     _dummy_name := _dummy_name self; _tf_handle := _tf_handle self;
     _dummy_handle := _dummy_handle self; _handle := _handle self;
     _initializer_op := _initializer_op self |}.

(** [self._handle = h] *)
Definition set_handle (h : Handle) (self : t) : t :=
  {| _key_type := _key_type self; _handle_dtype := _handle_dtype self;
     _dimension := _dimension self; _indices := _indices self; _mode := _mode self;
     _dummy_name := _dummy_name self; _tf_handle := _tf_handle self;
     _dummy_handle := _dummy_handle self; _handle := h;
     _initializer_op := _initializer_op self |}.

(** Properties inherited from the base class: [__init__] passes
    [dtype=self._handle_dtype] and [shape=[None, dimension]] to it. *)
Definition dtype (self : t) : DType := _handle_dtype self.
Definition shape (self : t) : list (option Z) := [None; Some (_dimension self)].
Definition handle (self : t) : Handle := _handle self.

(** What the adapter consumes: the framework ([ResourceVariable] and
    tensor helpers), the native op module [raw_ops],
    [communication.num_gpus] and Python's [int].  Base-class methods are addressed by name;
    they see [self] but re-bind none of the attributes above. *)
Class Backend := {
  World : Type;
  (* ResourceVariable *)
  base___init__ :
    Handle -> Z -> bool -> string -> DType -> PyVal -> list (option Z) -> External World PyVal;
  base_call : string -> t -> Arguments -> External World PyVal;
  variable_accessed : t -> External World unit;
  set_handle_shapes_and_types : Handle -> list (option Z) -> DType -> External World unit;
  (* ops, tf *)
  unique_name : string -> External World string;
  initial_value_of : PyVal -> External World PyVal;
  tf_group : list PyVal -> External World PyVal;
  tf_cast : PyVal -> DType -> External World PyVal;
  tf_neg : PyVal -> External World PyVal;
  convert_to_tensor : PyVal -> DType -> External World PyVal;
  identity_on_cpu : PyVal -> External World PyVal;
  str_of : PyVal -> string;
  (* raw_ops *)
  dummy_var_handle : Handle -> string -> string -> DType -> DType -> list (option Z) -> External World unit;
  dummy_var_initialize : Handle -> PyVal -> string -> string -> DType -> DType -> External World PyVal;
  dummy_var_shape : Handle -> DType -> DType -> External World PyVal;
  dummy_var_sparse_read : Handle -> PyVal -> DType -> External World PyVal;
  dummy_var_scatter_add : Handle -> PyVal -> PyVal -> External World PyVal;
  dummy_var_scatter_update : Handle -> PyVal -> PyVal -> External World PyVal;
  dummy_var_export : Handle -> DType -> DType -> External World (PyVal * PyVal);
  dummy_var_assign : Handle -> PyVal -> PyVal -> External World PyVal;
  (* communication *)
  communication_num_gpus : World -> Z;
  (* builtins: int(s) of a str, or the message of its ValueError *)
  builtin_int : string -> Z + string
}.

Section Methods.
Context {B : Backend}.

(** A method runs on the instance and the world around it. *)
Definition St : Type := t * World.
Definition Method (A : Type) := M St A.

Definition get_self : Method t := fun st => (Ok (fst st), st).
Definition modify_self (f : t -> t) : Method unit :=
  fun st => (Ok tt, (f (fst st), snd st)).
Definition ext {A} (f : External World A) : Method A :=
  fun st => let (r, w') := f (snd st) in (of_reply r, (fst st, w')).

(** [self._base.<name>(...)] *)
Definition base (name : string) (a : Arguments) : Method PyVal :=
  self <- get_self ;; ext (base_call name self a).

(** [v.dtype] *)
Fixpoint getattr_dtype (v : PyVal) : Outcome DType :=
  match v with
  | PyTensor d _ => Ok d
  | PyIndexedSlices values _ _ => getattr_dtype values
  | _ => Raise (AttributeError ("'" ++ type_name v ++ "' object has no attribute 'dtype'"))
  end.

(** [DynamicVariable(dimension, initializer, var_type, name, constraint,
    trainable, key_type, dtype, mode)].  [fresh] is the first unused
    object identity: the base class's handle and the native handle are
    two new objects. *)
Definition __init__ (dimension : Z) (initializer : PyVal) (var_type name : option string)
    (constraint : PyVal) (trainable : bool) (key_type dtype : option DType)
    (mode : option string) (fresh : Handle) : M World t :=
  let key_type := match key_type with Some k => k | None => tf_int64 end in
  let handle_dtype := match dtype with Some d => d | None => tf_float32 end in
  let base_handle := fresh in
  base_initializer_op <-
    foreign (base___init__ base_handle dimension trainable "DynamicVariableBuffer"
               handle_dtype constraint [None; Some dimension]) ;;
  let name := match name with None => "DynamicVariable" | Some n => n end in
  dummy_name <- foreign (unique_name name) ;;
  let shape := [None; Some dimension] in
  let initializer := if is_None initializer then PyStr "" else initializer in
  let var_type := match var_type with None => "dynamic" | Some v => v end in
  let handle := S fresh in
  foreign (dummy_var_handle handle "DummyVariableContainer" dummy_name
             key_type handle_dtype shape) ;;
  init_op <-
    match initializer with
    | PyStr _ =>
        foreign (dummy_var_initialize handle initializer var_type dummy_name
                   key_type handle_dtype)
    | _ =>
        initial_val <- foreign (initial_value_of initializer) ;;
        foreign (dummy_var_initialize handle initial_val var_type dummy_name
                   key_type handle_dtype)
    end ;;
  initializer_op <- foreign (tf_group [base_initializer_op; init_op]) ;;
  let self :=
    {| _key_type := key_type; _handle_dtype := handle_dtype;
       _dimension := dimension; _indices := PyNone; _mode := mode;
       _dummy_name := dummy_name; _tf_handle := base_handle;
       _dummy_handle := handle; _handle := handle;
       _initializer_op := initializer_op |} in
  foreign (set_handle_shapes_and_types (_handle self) (DynamicVariable.shape self)
             (DynamicVariable.dtype self)) ;;
  ret self.

Definition is_static (self : t) : bool :=
  Nat.eqb (_handle self) (_tf_handle self).

(** *** Methods supported both in static mode and dynamic mode *)

Definition sparse_read (indices name : PyVal) : Method PyVal :=
  self <- get_self ;;
  if is_static self then base "sparse_read" (args [indices; name])
  else
    ext (variable_accessed self) ;;
    indices_dtype <- (fun st => (getattr_dtype indices, st)) ;;
    indices <- (if String.eqb indices_dtype tf_int32
                then ext (tf_cast indices tf_int64) else ret indices) ;;
    ext (dummy_var_sparse_read (_dummy_handle self) indices (_handle_dtype self)).

Definition not_IndexedSlices {A} (sparse_delta : PyVal) : Method A :=
  raise (TypeError ("sparse_delta is not IndexedSlices: " ++ str_of sparse_delta)).

Definition scatter_sub (sparse_delta use_locking name : PyVal) : Method PyVal :=
  self <- get_self ;;
  if is_static self then base "scatter_sub" (args [sparse_delta; use_locking; name])
  else
    match sparse_delta with
    | PyIndexedSlices values indices _ =>
        negated <- ext (tf_neg values) ;;
        values <- ext (convert_to_tensor negated (dtype self)) ;;
        ext (dummy_var_scatter_add (_dummy_handle self) indices values)
    | _ => not_IndexedSlices sparse_delta
    end.

Definition scatter_add (sparse_delta use_locking name : PyVal) : Method PyVal :=
  self <- get_self ;;
  if is_static self then base "scatter_add" (args [sparse_delta; use_locking; name])
  else
    match sparse_delta with
    | PyIndexedSlices values indices _ =>
        values <- ext (convert_to_tensor values (dtype self)) ;;
        ext (dummy_var_scatter_add (_dummy_handle self) indices values)
    | _ => not_IndexedSlices sparse_delta
    end.

Definition scatter_update (sparse_delta use_locking name : PyVal) : Method PyVal :=
  self <- get_self ;;
  if is_static self then base "scatter_update" (args [sparse_delta; use_locking; name])
  else
    match sparse_delta with
    | PyIndexedSlices values indices _ =>
        values <- ext (convert_to_tensor values (dtype self)) ;;
        ext (dummy_var_scatter_update (_dummy_handle self) indices values)
    | _ => not_IndexedSlices sparse_delta
    end.

(** *** Methods not supported both in static mode and dynamic mode *)

Definition not_supported {A} (name : string) : Method A :=
  raise (NotImplementedError (name ++ "() is not supported.")).

Definition __deepcopy__ (a : Arguments) : Method PyVal := not_supported "__deepcopy__".
Definition __reduce__ (a : Arguments) : Method PyVal := not_supported "__reduce__".
Definition to_proto (a : Arguments) : Method PyVal := not_supported "to_proto".
Definition from_proto (a : Arguments) : Method PyVal := not_supported "from_proto".
Definition set_shape (a : Arguments) : Method PyVal := not_supported "set_shape".

(** *** Methods only supported in static mode *)

Definition static_only (name : string) (a : Arguments) : Method PyVal :=
  self <- get_self ;;
  if is_static self then base name a
  else raise (NotImplementedError (name ++ "() is not supported in dynamic mode.")).

Definition is_initialized : Method PyVal := static_only "is_initialized" no_args.
Definition _read_variable_op : Method PyVal := static_only "_read_variable_op" no_args.
Definition value : Method PyVal := static_only "value" no_args.
Definition _dense_var_to_tensor := static_only "_dense_var_to_tensor".
Definition _gather_saveables_for_checkpoint : Method PyVal :=
  static_only "_gather_saveables_for_checkpoint" no_args.
Definition gather_nd := static_only "gather_nd".
Definition assign_add := static_only "assign_add".
Definition assign := static_only "assign".
Definition scatter_max := static_only "scatter_max".
Definition scatter_min := static_only "scatter_min".
Definition scatter_mul := static_only "scatter_mul".
(** [ResourceVariable] has no [scatter_dim] (it has [scatter_div]): on
    a static instance the lookup [self._base.scatter_dim] fails before
    anything is called. *)
Definition scatter_dim (a : Arguments) : Method PyVal :=
  self <- get_self ;;
  if is_static self
  then raise (AttributeError "'super' object has no attribute 'scatter_dim'")
  else raise (NotImplementedError "scatter_dim() is not supported in dynamic mode.").
Definition batch_scatter_update := static_only "batch_scatter_update".
Definition scatter_nd_sub := static_only "scatter_nd_sub".
Definition scatter_nd_update := static_only "scatter_nd_update".
Definition _strided_slice_assign := static_only "_strided_slice_assign".
Definition __int__ := static_only "__int__".

(** *** Mode switches *)

Definition to_static (indices : PyVal) : Method PyVal :=
  self <- get_self ;;
  if negb (is_static self) && is_None (_indices self) then
    buffer <- sparse_read indices PyNone ;;
    modify_self (set_indices indices) ;;
    modify_self (fun self => set_handle (_tf_handle self) self) ;;
    assign (args [buffer])
  else raise (RuntimeError "to_static() must be called in dynamic mode.").

(** [self.read_value()] is the base class's method. *)
Definition to_dynamic : Method PyVal :=
  self <- get_self ;;
  if is_static self then
    buffer <- base "read_value" no_args ;;
    let sparse_delta := PyIndexedSlices buffer (_indices self) (PyTensorShape (shape self)) in
    modify_self (set_indices PyNone) ;;
    modify_self (fun self => set_handle (_dummy_handle self) self) ;;
    scatter_update sparse_delta (PyBool false) PyNone
  else raise (RuntimeError "to_dynamic() must be called in static mode.").

Definition __repr__ : Method PyVal :=
  self <- get_self ;;
  if is_static self then base "__repr__" no_args
  else ret (PyStr ("<sok.DynamicVariable '" ++ _dummy_name self ++ "' shape="
                     ++ str_shape (shape self) ++ " dtype=" ++ dtype self ++ ">")).

(** *** Properties *)

Definition size : Method PyVal :=
  self <- get_self ;;
  ext (dummy_var_shape (_dummy_handle self) (_key_type self) (_handle_dtype self)).

Definition indices : Method PyVal := self <- get_self ;; ret (_indices self).
Definition dimension : Method Z := self <- get_self ;; ret (_dimension self).
Definition key_type : Method DType := self <- get_self ;; ret (_key_type self).
Definition handle_dtype : Method DType := self <- get_self ;; ret (_handle_dtype self).

Definition num_gpus : Method Z := fun st => (Ok (communication_num_gpus (snd st)), st).

(** [self._mode] is [None] or a [str]. *)
Definition target_gpu : Method Z :=
  self <- get_self ;;
  match _mode self with
  | Some mode =>
      if String.prefix "localized" mode then
        match nth_error (split ":" mode) 1 with
        | None => raise (IndexError "list index out of range")
        | Some field =>
            match builtin_int field with
            | inr message => raise (ValueError message)
            | inl target_gpu =>
                gpus <- num_gpus ;;
                if target_gpu >=? gpus then
                  gpus <- num_gpus ;;
                  raise (RuntimeError
                           ("There are only " ++ percent_d gpus
                              ++ " GPU(s), cannot put embedding table on "
                              ++ percent_d target_gpu ++ "th(zero-indexed) GPU."))
                else ret target_gpu
            end
        end
      else ret (-1)
  | None => ret (-1)
  end.

Definition key_map (indices : PyVal) : Method PyVal := ret indices.

End Methods.

End DynamicVariable.

(** ** The functions of the module *)

(** What [export] and [assign] may be handed: an instance of the class
    or any other value. *)
Inductive PyObj :=
| Instance (var : DynamicVariable.t)
| Other (v : PyVal).

Module dynamic_variable.
Section Functions.
Import DynamicVariable.
Context {B : Backend}.

(** Returns the pair, or [None]. *)
Definition export (var : PyObj) : M World (option (PyVal * PyVal)) :=
  match var with
  | Instance var =>
      exported <- foreign (dummy_var_export (handle var) (_key_type var) (_handle_dtype var)) ;;
      let (indices, values) := exported : PyVal * PyVal in
      indices <- foreign (identity_on_cpu indices) ;;
      values <- foreign (identity_on_cpu values) ;;
      ret (Some (indices, values))
  | Other _ => ret None
  end.

Definition assign (var : PyObj) (indices values : PyVal) : M World PyVal :=
  match var with
  | Instance var => foreign (dummy_var_assign (handle var) indices values)
  | Other _ => ret PyNone
  end.

End Functions.
End dynamic_variable.

(** ** The public interface as a whole *)

Module Interface.
Import DynamicVariable.

(** The methods of the section "only supported in static mode". *)
Inductive StaticOnly :=
| m_is_initialized | m__read_variable_op | m_value | m__dense_var_to_tensor
| m__gather_saveables_for_checkpoint | m_gather_nd | m_assign_add | m_assign
| m_scatter_max | m_scatter_min | m_scatter_mul | m_scatter_dim
| m_batch_scatter_update | m_scatter_nd_sub | m_scatter_nd_update
| m__strided_slice_assign | m___int__.

(** The methods of the section "not supported both in static mode and
    dynamic mode". *)
Inductive Unsupported :=
| m___deepcopy__ | m___reduce__ | m_to_proto | m_from_proto | m_set_shape.

Definition static_only_name (m : StaticOnly) : string :=
  match m with
  | m_is_initialized => "is_initialized"
  | m__read_variable_op => "_read_variable_op"
  | m_value => "value"
  | m__dense_var_to_tensor => "_dense_var_to_tensor"
  | m__gather_saveables_for_checkpoint => "_gather_saveables_for_checkpoint"
  | m_gather_nd => "gather_nd"
  | m_assign_add => "assign_add"
  | m_assign => "assign"
  | m_scatter_max => "scatter_max"
  | m_scatter_min => "scatter_min"
  | m_scatter_mul => "scatter_mul"
  | m_scatter_dim => "scatter_dim"
  | m_batch_scatter_update => "batch_scatter_update"
  | m_scatter_nd_sub => "scatter_nd_sub"
  | m_scatter_nd_update => "scatter_nd_update"
  | m__strided_slice_assign => "_strided_slice_assign"
  | m___int__ => "__int__"
  end.

Definition unsupported_name (m : Unsupported) : string :=
  match m with
  | m___deepcopy__ => "__deepcopy__"
  | m___reduce__ => "__reduce__"
  | m_to_proto => "to_proto"
  | m_from_proto => "from_proto"
  | m_set_shape => "set_shape"
  end.

(** The methods declared with [self] alone; the others take
    [*args, **kwargs]. *)
Definition takes_arguments (m : StaticOnly) : bool :=
  match m with
  | m_is_initialized | m__read_variable_op | m_value
  | m__gather_saveables_for_checkpoint => false
  | _ => true
  end.

(** The methods whose name the base class defines. *)
Definition in_base_class (m : StaticOnly) : bool :=
  match m with
  | m_scatter_dim => false
  | _ => true
  end.

(** What the interpreter raises when a method declared with [self]
    alone is called with arguments: the first keyword, if there is one,
    else the number of positional arguments. *)
Definition arity_error (name : string) (a : Arguments) : Exn :=
  match keywords a with
  | (keyword, _) :: _ =>
      TypeError ("DynamicVariable." ++ name ++ "() got an unexpected keyword argument '"
                   ++ keyword ++ "'")
  | [] =>
      TypeError ("DynamicVariable." ++ name ++ "() takes 1 positional argument but "
                   ++ percent_d (Z.of_nat (S (length (positional a)))) ++ " were given")
  end.

Section Calls.
Context {B : Backend}.

(** A call of a method declared with [self] alone. *)
Definition without_arguments (name : string) (m : Method PyVal) (a : Arguments) :
    Method PyVal :=
  match positional a, keywords a with
  | [], [] => m
  | _, _ => raise (arity_error name a)
  end.

Definition call_static_only (m : StaticOnly) (a : Arguments) : Method PyVal :=
  match m with
  | m_is_initialized => without_arguments "is_initialized" is_initialized a
  | m__read_variable_op => without_arguments "_read_variable_op" _read_variable_op a
  | m_value => without_arguments "value" value a
  | m__dense_var_to_tensor => _dense_var_to_tensor a
  | m__gather_saveables_for_checkpoint =>
      without_arguments "_gather_saveables_for_checkpoint" _gather_saveables_for_checkpoint a
  | m_gather_nd => gather_nd a
  | m_assign_add => assign_add a
  | m_assign => DynamicVariable.assign a
  | m_scatter_max => scatter_max a
  | m_scatter_min => scatter_min a
  | m_scatter_mul => scatter_mul a
  | m_scatter_dim => scatter_dim a
  | m_batch_scatter_update => batch_scatter_update a
  | m_scatter_nd_sub => scatter_nd_sub a
  | m_scatter_nd_update => scatter_nd_update a
  | m__strided_slice_assign => _strided_slice_assign a
  | m___int__ => __int__ a
  end.

Definition call_unsupported (m : Unsupported) (a : Arguments) : Method PyVal :=
  match m with
  | m___deepcopy__ => __deepcopy__ a
  | m___reduce__ => __reduce__ a
  | m_to_proto => to_proto a
  | m_from_proto => from_proto a
  | m_set_shape => set_shape a
  end.

(** One use of an instance by its owner. *)
Inductive Call :=
| call_is_static
| call_to_static (indices : PyVal)
| call_to_dynamic
| call___repr__
| call_size | call_indices | call_dimension | call_key_type
| call_handle_dtype | call_target_gpu | call_num_gpus
| call_key_map (indices : PyVal)
| call_sparse_read (indices name : PyVal)
| call_scatter_sub (sparse_delta use_locking name : PyVal)
| call_scatter_add (sparse_delta use_locking name : PyVal)
| call_scatter_update (sparse_delta use_locking name : PyVal)
| call_static (m : StaticOnly) (a : Arguments)
| call_refused (m : Unsupported) (a : Arguments)
| call_export
| call_assign (indices values : PyVal).

(** The state a call leaves behind, whether it returned or raised. *)
Definition after {A} (m : Method A) (st : St) : St := snd (m st).

Definition on_world {A} (m : M World A) (st : St) : St := (fst st, snd (m (snd st))).

Definition perform (c : Call) : St -> St :=
  match c with
  | call_is_static => fun st => st
  | call_to_static indices => after (to_static indices)
  | call_to_dynamic => after to_dynamic
  | call___repr__ => after __repr__
  | call_size => after size
  | call_indices => after DynamicVariable.indices
  | call_dimension => after dimension
  | call_key_type => after key_type
  | call_handle_dtype => after handle_dtype
  | call_target_gpu => after target_gpu
  | call_num_gpus => after num_gpus
  | call_key_map indices => after (key_map indices)
  | call_sparse_read indices name => after (sparse_read indices name)
  | call_scatter_sub d l n => after (scatter_sub d l n)
  | call_scatter_add d l n => after (scatter_add d l n)
  | call_scatter_update d l n => after (scatter_update d l n)
  | call_static m a => after (call_static_only m a)
  | call_refused m a => after (call_unsupported m a)
  | call_export => fun st => on_world (dynamic_variable.export (Instance (fst st))) st
  | call_assign indices values => fun st => 
      on_world (dynamic_variable.assign (Instance (fst st)) indices values) st
  end.

Definition run (calls : list Call) (st : St) : St :=
  fold_left (fun st c => perform c st) calls st.

End Calls.
End Interface.

(** ** A backend that records what it is asked

    Every external call is written to a journal and answered with a new
    opaque tensor.  It serves to run the adapter on concrete inputs. *)

Module Recorder.
Import DynamicVariable.

Record Lab := { journal : list string; gpus : Z }.

Definition noted (what : string) (w : Lab) : Lab :=
  {| journal := what :: journal w; gpus := gpus w |}.

Definition emit (what : string) (d : DType) : External Lab PyVal :=
  fun w => (Returns (PyTensor d (length (journal w))), noted what w).

Definition effect (what : string) : External Lab unit :=
  fun w => (Returns tt, noted what w).

Definition recorder : Backend :=
  {| World := Lab;
     base___init__ := fun _ _ _ _ _ _ _ => emit "ResourceVariable.__init__" "resource";
     base_call := fun name self _ => emit ("ResourceVariable." ++ name) (dtype self);
     variable_accessed := fun _ => effect "variable_accessed";
     set_handle_shapes_and_types := fun _ _ _ => effect "_set_handle_shapes_and_types";
     unique_name := fun name w => (Returns (name ++ "_" ++ percent_d (Z.of_nat (length (journal w)))),
                                   noted "uid" w);
     initial_value_of := fun _ => emit "read_value" tf_float32;
     tf_group := fun _ => emit "group" "resource";
     tf_cast := fun _ d => emit "cast" d;
     tf_neg := fun v => emit "neg" (match v with PyTensor d _ => d | _ => tf_float32 end);
     convert_to_tensor := fun _ d => emit "convert_to_tensor" d;
     identity_on_cpu := fun v w => (Returns v, noted "identity" w);
     str_of := type_name;
     dummy_var_handle := fun _ _ _ _ _ _ => effect "dummy_var_handle";
     dummy_var_initialize := fun _ _ _ _ _ _ => emit "dummy_var_initialize" "resource";
     dummy_var_shape := fun _ _ _ => emit "dummy_var_shape" tf_int64;
     dummy_var_sparse_read := fun _ _ d => emit "dummy_var_sparse_read" d;
     dummy_var_scatter_add := fun _ _ _ => emit "dummy_var_scatter_add" "resource";
     dummy_var_scatter_update := fun _ _ _ => emit "dummy_var_scatter_update" "resource";
     dummy_var_export := fun _ k d w =>
       (Returns (PyTensor k (length (journal w)), PyTensor d (S (length (journal w)))),
        noted "dummy_var_export" w);
     dummy_var_assign := fun _ _ _ => emit "dummy_var_assign" "resource";
     communication_num_gpus := gpus;
     builtin_int := read_int |}.

(** A machine with two GPUs on which nothing has run yet. *)
Definition boot : Lab := {| journal := []; gpus := 2 |}.

(** [DynamicVariable(16)] and [DynamicVariable(16, mode=m)] on it. *)
Definition fresh_variable (mode : option string) : Outcome t * Lab :=
  @__init__ recorder 16 PyNone None None PyNone true None None mode 0%nat boot.

Definition variable (mode : option string) : t :=
  match fst (fresh_variable mode) with
  | Ok self => self
  | Raise _ =>
      {| _key_type := tf_int64; _handle_dtype := tf_float32; _dimension := 16;
         _indices := PyNone; _mode := mode; _dummy_name := ""; _tf_handle := 0%nat;
         _dummy_handle := 1%nat; _handle := 1%nat; _initializer_op := PyNone |}
  end.

Definition started (mode : option string) : @St recorder :=
  (variable mode, snd (fresh_variable mode)).

Definition some_indices : PyVal := PyTensor tf_int64 100.
Definition some_delta : PyVal :=
  PyIndexedSlices (PyTensor tf_float32 101) some_indices PyNone.

(** The same instance after [to_static(some_indices)]. *)
Definition switched : @St recorder :=
  Interface.after (to_static some_indices) (started None).

End Recorder.

(** ** Specifications *)

Module Spec.
Import DynamicVariable Interface.

Section Predicates.
Context {B : Backend}.

(** [self] still carries what [origin] was built with, and its active
    handle is one of the two handles of [origin]. *)
Record anchored (origin self : t) : Prop := {
  same_key_type : _key_type self = _key_type origin;
  same_handle_dtype : _handle_dtype self = _handle_dtype origin;
  same_dimension : _dimension self = _dimension origin;
  same_mode : _mode self = _mode origin;
  same_tf_handle : _tf_handle self = _tf_handle origin;
  same_dummy_handle : _dummy_handle self = _dummy_handle origin;
  one_active : _handle self = _tf_handle origin \/ _handle self = _dummy_handle origin
}.

(** The two handles are different objects and one of them is active. *)
Definition exclusive (self : t) : Prop :=
  _tf_handle self <> _dummy_handle self /\
  (_handle self = _tf_handle self \/ _handle self = _dummy_handle self).

(** A method under which [anchored origin] is stable, however it ends. *)
Definition keeps {A} (origin : t) (m : Method A) : Prop :=
  forall st, anchored origin (fst st) -> anchored origin (fst (snd (m st))).

(** A method that leaves the instance alone. *)
Definition reads_only {A} (m : Method A) : Prop :=
  forall st, fst (snd (m st)) = fst st.

(** The method raises this exception and changes nothing. *)
Definition refuses {A} (m : Method A) (e : Exn) : Prop :=
  forall st, m st = (Raise e, st).

(** The method calls the base class's method of that name with the same
    arguments and answers what that call answers. *)
Definition delegates (m : Method PyVal) (name : string) (a : Arguments) (st : St) : Prop :=
  m st = (let (r, w) := base_call name (fst st) a (snd st) in (of_reply r, (fst st, w))).

(** The method raises [NotImplementedError] and changes nothing. *)
Definition signals_not_supported (m : Method PyVal) (st : St) : Prop :=
  exists msg, m st = (Raise (NotImplementedError msg), st).

(** The reading of the sentence on the fixed set of framework
    operations: the method fails with the not-supported signal on a
    dynamic instance and is the base class's method on a static one. *)
Definition gated_on_mode (m : Arguments -> Method PyVal) (name : string) : Prop :=
  forall (a : Arguments) (st : St),
    (is_static (fst st) = false -> signals_not_supported (m a) st) /\
    (is_static (fst st) = true -> delegates (m a) name a st).

(** Forwarding to the native store: the read of rows by key ... *)
Definition native_read (self : t) (indices : PyVal) : Method PyVal :=
  ext (variable_accessed self) ;;
  indices_dtype <- (fun st => (getattr_dtype indices, st)) ;;
  indices <- (if String.eqb indices_dtype tf_int32
              then ext (tf_cast indices tf_int64) else ret indices) ;;
  ext (dummy_var_sparse_read (_dummy_handle self) indices (_handle_dtype self)).

(** ... and a scatter op on the pair (indices, values), the values
    converted to the variable's dtype. *)
Definition native_scatter (op : Handle -> PyVal -> PyVal -> External World PyVal)
    (self : t) (indices values : PyVal) : Method PyVal :=
  values <- ext (convert_to_tensor values (_handle_dtype self)) ;;
  ext (op (_dummy_handle self) indices values).

(** The device index a mode string asks for: what [int] reads in its
    second colon-separated field. *)
Definition requested_gpu (mode : string) : option Z :=
  match nth_error (split ":" mode) 1 with
  | Some field =>
      match builtin_int field with
      | inl g => Some g
      | inr _ => None
      end
  | None => None
  end.

End Predicates.
End Spec.

(** ** The life of an instance *)

Module Lifecycle.
Import DynamicVariable Interface.

(** The value has a [dtype] attribute. *)
Definition has_dtype (v : PyVal) : Prop := exists d, getattr_dtype v = Ok d.

(** The instance once [to_static(indices)] has re-bound its attributes. *)
Definition made_static (indices : PyVal) (self : t) : t :=
  set_handle (_tf_handle self) (set_indices indices self).

(** The instance once [to_dynamic()] has re-bound its attributes. *)
Definition made_dynamic (self : t) : t :=
  set_handle (_dummy_handle self) (set_indices PyNone self).

(** The two calls that switch the mode. *)
Definition switches (c : Call) : bool :=
  match c with
  | call_to_static _ | call_to_dynamic => true
  | _ => false
  end.

(** An index set is recorded exactly while the instance is static, and
    what is recorded has a [dtype]. *)
Definition settled (self : t) : Prop :=
  (is_static self = true -> has_dtype (_indices self)) /\
  (is_static self = false -> _indices self = PyNone).

End Lifecycle.

(** ** The session smoke test

    [test/pybind_test/session_test.py]: a training loop against the
    [hugectr] session API, which is external. *)

Module session_test.

(** The keyword arguments of [solver_parser_helper]; the two float
    literals are kept as written. *)
Record SolverArguments := {
  batchsize : Z;
  batchsize_eval : Z;
  lr_policy : string;
  vvgpu : list (list Z);
  i64_input_key : bool;
  metrics_spec : list (string * string)
}.

Class SessionApi := {
  Host : Type;
  solver_parser_helper : SolverArguments -> External Host PyVal;
  Session : PyVal -> string -> External Host PyVal;
  train : PyVal -> External Host unit;
  get_current_loss : PyVal -> External Host PyVal;
  evaluation : PyVal -> External Host PyVal;
  print : PyVal -> External Host unit;
  str_of_loss : PyVal -> string
}.

(** [for i in items: body(i)] *)
Fixpoint for_each {W} (body : Z -> M W unit) (items : list Z) : M W unit :=
  match items with
  | [] => ret tt
  | i :: rest => body i ;; for_each body rest
  end.

(** [range(n)]: [n] integers, counted up from [0]. *)
Fixpoint count_from (start : Z) (n : nat) : list Z :=
  match n with
  | O => []
  | S n' => start :: count_from (start + 1) n'
  end.

Definition range (n : Z) : list Z := count_from 0 (Z.to_nat n).

Section Script.
Context {api : SessionApi}.

(** The body of the loop of [session_impl_test]. *)
Definition iteration (sess : PyVal) (i : Z) : M Host unit :=
  foreign (train sess) ;;
  (if i mod 100 =? 0 then
     loss <- foreign (get_current_loss sess) ;;
     foreign (print (PyStr ("iter: " ++ percent_d i ++ "; loss: " ++ str_of_loss loss)))
   else ret tt) ;;
  (if (i mod 1000 =? 0) && negb (i =? 0) then
     metrics <- foreign (evaluation sess) ;;
     foreign (print metrics)
   else ret tt).

Definition session_impl_test : M Host unit :=
  let json_name := "./criteo_data/criteo_bin.json" in
  solver_config <-
    foreign (solver_parser_helper
               {| batchsize := 512; batchsize_eval := 512; lr_policy := "LrPolicy_t.fixed";
                  vvgpu := [[0]]; i64_input_key := false;
                  metrics_spec := [("MetricsType.AUC", "0.8025");
                                   ("MetricsType.AverageLoss", "0.005")] |}) ;;
  sess <- foreign (Session solver_config json_name) ;;
  for_each (iteration sess) (range 10000).

End Script.

(** *** Watching the calls *)

Inductive Event :=
| called_solver_parser_helper
| called_Session
| called_train
| called_get_current_loss
| called_evaluation
| called_print.

Definition Event_eqb (a b : Event) : bool :=
  match a, b with
  | called_solver_parser_helper, called_solver_parser_helper
  | called_Session, called_Session
  | called_train, called_train
  | called_get_current_loss, called_get_current_loss
  | called_evaluation, called_evaluation
  | called_print, called_print => true
  | _, _ => false
  end.

Definition times (e : Event) (calls : list Event) : nat :=
  length (filter (Event_eqb e) calls).

(** An external call that is written down, latest first, when it is made. *)
Definition watched {W A} (e : Event) (f : External W A) : External (W * list Event) A :=
  fun s => let (r, w') := f (fst s) in (r, (w', e :: snd s)).

(** Any implementation of the API, with its calls written down. *)
Definition watching (api : SessionApi) : SessionApi :=
  {| Host := @Host api * list Event;
     solver_parser_helper := fun a => watched called_solver_parser_helper (solver_parser_helper a);
     Session := fun config json => watched called_Session (Session config json);
     train := fun sess => watched called_train (train sess);
     get_current_loss := fun sess => watched called_get_current_loss (get_current_loss sess);
     evaluation := fun sess => watched called_evaluation (evaluation sess);
     print := fun what => watched called_print (print what);
     str_of_loss := @str_of_loss api |}.

(** The calls of one iteration that nothing interrupts, in order. *)
Definition calls_of_iteration (i : Z) : list Event :=
  [called_train]
    ++ (if i mod 100 =? 0 then [called_get_current_loss; called_print] else [])
    ++ (if (i mod 1000 =? 0) && negb (i =? 0) then [called_evaluation; called_print] else []).

Definition calls_of (items : list Z) : list Event :=
  flat_map calls_of_iteration items.

(** [done] is an initial part of [all]. *)
Definition initial (done all : list Event) : Prop :=
  exists rest, all = (done ++ rest)%list.

(** Run on any watched implementation, [m] makes the calls [all] in
    that order: all of them when it returns, an initial part of them
    when it raises. *)
Definition makes {A} (api : SessionApi) (m : M (@Host (watching api)) A)
    (all : list Event) : Prop :=
  forall (w : @Host api) (log : list Event),
    exists done,
      snd (snd (m (w, log))) = (rev done ++ log)%list /\
      initial done all /\
      (forall a, fst (m (w, log)) = Ok a -> done = all).

(** A session that answers every call; its state counts the calls. *)
Definition steady : SessionApi :=
  {| Host := nat;
     solver_parser_helper := fun _ n => (Returns (PyTensor "config" n), S n);
     Session := fun _ _ n => (Returns (PyTensor "session" n), S n);
     train := fun _ n => (Returns tt, S n);
     get_current_loss := fun _ n => (Returns (PyTensor tf_float32 n), S n);
     evaluation := fun _ n => (Returns (PyTensor tf_float32 n), S n);
     print := fun _ n => (Returns tt, S n);
     str_of_loss := type_name |}.

(** A session whose [train] fails from its fourth call on. *)
Definition failing : SessionApi :=
  {| Host := nat;
     solver_parser_helper := fun _ n => (Returns (PyTensor "config" n), n);
     Session := fun _ _ n => (Returns (PyTensor "session" n), n);
     train := fun _ n => if (3 <=? n)%nat then (Throws "train", n) else (Returns tt, S n);
     get_current_loss := fun _ n => (Returns (PyTensor tf_float32 n), n);
     evaluation := fun _ n => (Returns (PyTensor tf_float32 n), n);
     print := fun _ n => (Returns tt, n);
     str_of_loss := type_name |}.

End session_test.

(** ** What every call leaves in place *)

Section Frame.
Import DynamicVariable Interface Spec.
Context {B : Backend}.
Variable origin : t.

Lemma keeps_still {A} (f : St -> Outcome A) : keeps origin (fun st => (f st, st)).
Proof. intros st H. exact H. Qed.

Lemma keeps_ret {A} (a : A) : keeps origin (ret a).
Proof. apply (keeps_still (fun _ => Ok a)). Qed.

Lemma keeps_raise {A} (e : Exn) : keeps origin (@raise St A e).
Proof. apply (keeps_still (fun _ => Raise e)). Qed.

Lemma keeps_get_self : keeps origin get_self.
Proof. apply (keeps_still (fun st => Ok (fst st))). Qed.

Lemma keeps_ext {A} (f : External World A) : keeps origin (ext f).
Proof.
  intros [self w] H. unfold ext. simpl. destruct (f w) as [r w']. exact H.
Qed.

Lemma keeps_bind {A C} (m : Method A) (k : A -> Method C) :
  keeps origin m -> (forall a, keeps origin (k a)) -> keeps origin (bind m k).
Proof.
  intros Hm Hk st H. unfold bind.
  specialize (Hm st H). destruct (m st) as [[a | e] st']; simpl in *.
  - apply Hk. exact Hm.
  - exact Hm.
Qed.

Lemma keeps_set_indices (v : PyVal) : keeps origin (modify_self (set_indices v)).
Proof. intros [self w] H. destruct H. split; simpl; assumption. Qed.

Lemma keeps_activate_tf :
  keeps origin (modify_self (fun self => set_handle (_tf_handle self) self)).
Proof. intros [self w] H. destruct H. split; simpl; auto. Qed.

Lemma keeps_activate_dummy :
  keeps origin (modify_self (fun self => set_handle (_dummy_handle self) self)).
Proof. intros [self w] H. destruct H. split; simpl; auto. Qed.

Lemma keeps_base (name : string) (a : Arguments) : keeps origin (base name a).
Proof.
  unfold base. apply keeps_bind; [apply keeps_get_self | intros self; apply keeps_ext].
Qed.

Create HintDb frame.
#[local] Hint Resolve keeps_ret keeps_raise keeps_get_self keeps_ext keeps_base
  keeps_set_indices keeps_activate_tf keeps_activate_dummy : frame.

(** Walks down a method body: one case per branch, one step per call. *)
Ltac frame :=
  repeat first
    [ apply keeps_bind; [ | intro ]
    | match goal with
      | |- keeps _ (if ?b then _ else _) => destruct b
      | |- keeps _ (match ?x with _ => _ end) => destruct x
      end
    | solve [ auto with frame ]
    | apply keeps_still ].

Lemma keeps_static_only (name : string) (a : Arguments) : keeps origin (static_only name a).
Proof. unfold static_only. frame. Qed.

Lemma keeps_without_arguments (name : string) (m : Method PyVal) (a : Arguments) :
  keeps origin m -> keeps origin (without_arguments name m a).
Proof.
  intro Hm. unfold without_arguments.
  destruct (positional a); destruct (keywords a); first [ exact Hm | apply keeps_raise ].
Qed.

Lemma keeps_scatter_dim (a : Arguments) : keeps origin (scatter_dim a).
Proof. unfold scatter_dim. frame. Qed.

Lemma keeps_call_static_only (m : StaticOnly) (a : Arguments) :
  keeps origin (call_static_only m a).
Proof.
  destruct m;
    first [ apply keeps_static_only
          | apply keeps_without_arguments; apply keeps_static_only
          | apply keeps_scatter_dim ].
Qed.

Lemma keeps_sparse_read (indices name : PyVal) : keeps origin (sparse_read indices name).
Proof. unfold sparse_read. frame. Qed.

Lemma keeps_scatter_update (d l n : PyVal) : keeps origin (scatter_update d l n).
Proof. unfold scatter_update, not_IndexedSlices. frame. Qed.

Lemma keeps_scatter_add (d l n : PyVal) : keeps origin (scatter_add d l n).
Proof. unfold scatter_add, not_IndexedSlices. frame. Qed.

Lemma keeps_scatter_sub (d l n : PyVal) : keeps origin (scatter_sub d l n).
Proof. unfold scatter_sub, not_IndexedSlices. frame. Qed.

#[local] Hint Resolve keeps_static_only keeps_sparse_read keeps_scatter_update
  keeps_scatter_add keeps_scatter_sub : frame.

Lemma keeps_to_static (indices : PyVal) : keeps origin (to_static indices).
Proof. unfold to_static, DynamicVariable.assign. frame. Qed.

Lemma keeps_to_dynamic : keeps origin to_dynamic.
Proof. unfold to_dynamic. frame. Qed.

Lemma keeps_target_gpu : keeps origin target_gpu.
Proof. unfold target_gpu, num_gpus. frame. Qed.

Lemma perform_anchored (c : Call) (st : St) :
  anchored origin (fst st) -> anchored origin (fst (perform c st)).
Proof.
  destruct c; simpl; unfold after, on_world;
    first
      [ apply keeps_to_static | apply keeps_to_dynamic | apply keeps_target_gpu
      | apply keeps_sparse_read | apply keeps_scatter_sub | apply keeps_scatter_add
      | apply keeps_scatter_update
      | apply keeps_call_static_only
      | destruct m; apply keeps_raise
      | unfold __repr__; frame
      | unfold size; frame
      | intro H; exact H ].
Qed.

Lemma run_anchored (calls : list Call) :
  forall st, anchored origin (fst st) -> anchored origin (fst (run calls st)).
Proof.
  induction calls as [| c calls IH]; intros st H; simpl.
  - exact H.
  - apply IH. apply perform_anchored. exact H.
Qed.

End Frame.

(** ** Construction *)

Section Construction.
Import DynamicVariable Interface Spec.
Context {B : Backend}.

Lemma bind_returned {S A C} (m : M S A) (k : A -> M S C) (s s' : S) (c : C) :
  bind m k s = (Ok c, s') ->
  exists a s1, m s = (Ok a, s1) /\ k a s1 = (Ok c, s').
Proof.
  unfold bind. destruct (m s) as [[a | e] s1]; intro H.
  - exists a, s1. split; [reflexivity | exact H].
  - discriminate H.
Qed.

(** What a completed [__init__] has bound. *)
Lemma init_binds dimension initializer var_type name constraint trainable
    key_type dtype mode fresh (w w' : World) (self : t) :
  __init__ dimension initializer var_type name constraint trainable
    key_type dtype mode fresh w = (Ok self, w') ->
  _key_type self = match key_type with Some k => k | None => tf_int64 end /\
  _handle_dtype self = match dtype with Some d => d | None => tf_float32 end /\
  _dimension self = dimension /\
  _indices self = PyNone /\
  _mode self = mode /\
  _tf_handle self = fresh /\
  _dummy_handle self = S fresh /\
  _handle self = S fresh.
Proof.
  unfold __init__. intro H.
  repeat (apply bind_returned in H; destruct H as (? & ? & _ & H)).
  unfold ret in H. injection H as <- _. simpl. repeat split.
Qed.

Lemma anchored_refl (self : t) :
  _handle self = _dummy_handle self -> anchored self self.
Proof. intro H. split; auto. Qed.

Lemma is_static_true (self : t) : is_static self = true <-> _handle self = _tf_handle self.
Proof. unfold is_static. apply Nat.eqb_eq. Qed.

Lemma is_static_false (self : t) : is_static self = false <-> _handle self <> _tf_handle self.
Proof. unfold is_static. apply Nat.eqb_neq. Qed.

(** Every instance, however it has been used since it was built, has
    two different handles, one of them active. *)
Lemma instances_are_exclusive dimension initializer var_type name constraint trainable
    key_type dtype mode fresh (w w' : World) (self : t) (calls : list Call) :
  __init__ dimension initializer var_type name constraint trainable
    key_type dtype mode fresh w = (Ok self, w') ->
  exclusive (fst (run calls (self, w'))).
Proof.
  intro Hinit. apply init_binds in Hinit.
  destruct Hinit as (_ & _ & _ & _ & _ & Htf & Hdummy & Hactive).
  assert (Hnow : anchored self (fst (run calls (self, w')))).
  { apply run_anchored. simpl. apply anchored_refl. congruence. }
  destruct Hnow as [_ _ _ _ Hsame_tf Hsame_dummy Hone].
  unfold exclusive. rewrite Hsame_tf, Hsame_dummy. split; [ | exact Hone ].
  rewrite Htf, Hdummy. apply Nat.neq_succ_diag_r.
Qed.

End Construction.

(** C1. A new instance is dynamic: its active handle is the native
    store's handle, so [is_static()] is false.  From then on, whatever
    is called on the instance and however the calls end, [is_static()]
    is true exactly when the active handle is the handle the base class
    built at construction, and false exactly when it is the native
    store's; one of the two is always active. *)
Theorem is_static_iff_native_handle_active :
  forall (B : DynamicVariable.Backend) dimension initializer var_type name constraint
         trainable key_type dtype mode fresh w self w',
    DynamicVariable.__init__ dimension initializer var_type name constraint trainable
      key_type dtype mode fresh w = (Ok self, w') ->
    (DynamicVariable.is_static self = false /\
     DynamicVariable._handle self = DynamicVariable._dummy_handle self) /\
    forall calls,
      let now := fst (Interface.run calls (self, w')) in
      (DynamicVariable.is_static now = true <->
         DynamicVariable._handle now = DynamicVariable._tf_handle self) /\
      (DynamicVariable.is_static now = false <->
         DynamicVariable._handle now = DynamicVariable._dummy_handle self).
Proof.
  intros B dimension initializer var_type name constraint trainable key_type dtype mode
    fresh w self w' Hinit.
  apply init_binds in Hinit.
  destruct Hinit as (_ & _ & _ & _ & _ & Htf & Hdummy & Hactive).
  assert (Hdyn : DynamicVariable._handle self = DynamicVariable._dummy_handle self)
    by congruence.
  split.
  - split; [ | exact Hdyn ].
    apply is_static_false. rewrite Hactive, Htf. apply Nat.neq_succ_diag_l.
  - intros calls now.
    assert (Hnow : Spec.anchored self now)
      by (apply run_anchored; simpl; apply anchored_refl; exact Hdyn).
    destruct Hnow as [_ _ _ _ Hsame_tf _ Hone].
    split.
    + rewrite is_static_true, Hsame_tf. reflexivity.
    + rewrite is_static_false, Hsame_tf. split.
      * intro Hneq. destruct Hone as [Hone | Hone]; [ contradiction | exact Hone ].
      * intros Heq. rewrite Heq, Htf, Hdummy. apply Nat.neq_succ_diag_l.
Qed.

Lemma is_static_iff_native_handle_active_witness :
  (DynamicVariable.is_static (Recorder.variable None) = false /\
   DynamicVariable._handle (Recorder.variable None)
     = DynamicVariable._dummy_handle (Recorder.variable None)) /\
  forall calls,
    let now := fst (@Interface.run Recorder.recorder calls (Recorder.started None)) in
    (DynamicVariable.is_static now = true <->
       DynamicVariable._handle now = DynamicVariable._tf_handle (Recorder.variable None)) /\
    (DynamicVariable.is_static now = false <->
       DynamicVariable._handle now = DynamicVariable._dummy_handle (Recorder.variable None)).
Proof.
  apply (is_static_iff_native_handle_active Recorder.recorder
           16 PyNone None None PyNone true None None None 0%nat Recorder.boot).
  reflexivity.
Defined.

(** C9. The key type, the value dtype and the embedding dimension are
    those given to the constructor (with [tf.int64] and [tf.float32] as
    defaults), and after any sequence of public calls the instance still
    carries them and the properties [key_type], [handle_dtype] and
    [dimension] still answer them. *)
Theorem key_value_shape_is_immutable :
  forall (B : DynamicVariable.Backend) dimension initializer var_type name constraint
         trainable key_type dtype mode fresh w self w',
    DynamicVariable.__init__ dimension initializer var_type name constraint trainable
      key_type dtype mode fresh w = (Ok self, w') ->
    (DynamicVariable._key_type self = match key_type with Some k => k | None => tf_int64 end /\
     DynamicVariable._handle_dtype self = match dtype with Some d => d | None => tf_float32 end /\
     DynamicVariable._dimension self = dimension) /\
    forall calls,
      let st := Interface.run calls (self, w') in
      (DynamicVariable._key_type (fst st) = DynamicVariable._key_type self /\
       DynamicVariable._handle_dtype (fst st) = DynamicVariable._handle_dtype self /\
       DynamicVariable._dimension (fst st) = DynamicVariable._dimension self) /\
      (fst (DynamicVariable.key_type st) = Ok (DynamicVariable._key_type self) /\
       fst (DynamicVariable.handle_dtype st) = Ok (DynamicVariable._handle_dtype self) /\
       fst (DynamicVariable.dimension st) = Ok (DynamicVariable._dimension self)).
Proof.
  intros B dimension initializer var_type name constraint trainable key_type dtype mode
    fresh w self w' Hinit.
  apply init_binds in Hinit.
  destruct Hinit as (Hkey & Hdtype & Hdim & _ & _ & Htf & Hdummy & Hactive).
  split; [ repeat split; assumption | ].
  intros calls st.
  assert (Hnow : Spec.anchored self (fst st)).
  { apply run_anchored. simpl. apply anchored_refl. congruence. }
  destruct Hnow as [Hk Hd Hn _ _ _ _].
  split; [ repeat split; assumption | ].
  unfold DynamicVariable.key_type, DynamicVariable.handle_dtype, DynamicVariable.dimension,
    bind, DynamicVariable.get_self, ret; simpl.
  rewrite Hk, Hd, Hn. repeat split.
Qed.

Lemma key_value_shape_is_immutable_witness :
  let st := @Interface.run Recorder.recorder
              [Interface.call_to_static Recorder.some_indices;
               Interface.call_static Interface.m_assign_add (args [PyTensor tf_float32 7]);
               Interface.call_to_dynamic;
               Interface.call_scatter_add Recorder.some_delta (PyBool false) PyNone]
              (Recorder.started None) in
  (DynamicVariable._key_type (fst st) = tf_int64 /\
   DynamicVariable._handle_dtype (fst st) = tf_float32 /\
   DynamicVariable._dimension (fst st) = 16) /\
  (fst (DynamicVariable.key_type st) = Ok tf_int64 /\
   fst (DynamicVariable.handle_dtype st) = Ok tf_float32 /\
   fst (DynamicVariable.dimension st) = Ok 16).
Proof.
  exact (proj2 (key_value_shape_is_immutable Recorder.recorder
                  16 PyNone None None PyNone true None None None 0%nat Recorder.boot
                  (Recorder.variable None) (snd (Recorder.fresh_variable None)) eq_refl)
               [Interface.call_to_static Recorder.some_indices;
                Interface.call_static Interface.m_assign_add (args [PyTensor tf_float32 7]);
                Interface.call_to_dynamic;
                Interface.call_scatter_add Recorder.some_delta (PyBool false) PyNone]).
Defined.

(** ** Mode dispatch *)

Section Dispatch.
Import DynamicVariable Interface Spec.
Context {B : Backend}.

Lemma bind_get_self {A} (k : t -> Method A) (st : St) :
  bind get_self k st = k (fst st) st.
Proof. reflexivity. Qed.

Lemma bind_ret {A C} (a : A) (k : A -> Method C) (st : St) : bind (ret a) k st = k a st.
Proof. reflexivity. Qed.

Lemma bind_modify_self {A} (f : t -> t) (k : unit -> Method A) (self : t) (w : World) :
  bind (modify_self f) k (self, w) = k tt (f self, w).
Proof. reflexivity. Qed.

Lemma bind_ext {A C} (f : External World A) (k : A -> Method C) (self : t) (w : World) :
  bind (ext f) k (self, w) =
  match f w with
  | (Returns a, w') => k a (self, w')
  | (Throws e, w') => (Raise (Foreign e), (self, w'))
  end.
Proof. unfold bind, ext. simpl. destruct (f w) as [[a | e] w']; reflexivity. Qed.

Lemma ext_run {A} (f : External World A) (self : t) (w : World) :
  ext f (self, w) = (of_reply (fst (f w)), (self, snd (f w))).
Proof. unfold ext. simpl. destruct (f w); reflexivity. Qed.

Lemma static_only_static (name : string) (a : Arguments) (st : St) :
  is_static (fst st) = true -> static_only name a st = base name a st.
Proof.
  intro H. unfold static_only, bind, get_self. simpl. rewrite H. reflexivity.
Qed.

Lemma static_only_dynamic (name : string) (a : Arguments) (st : St) :
  is_static (fst st) = false ->
  static_only name a st
  = (Raise (NotImplementedError (name ++ "() is not supported in dynamic mode.")), st).
Proof.
  intro H. unfold static_only, bind, get_self. simpl. rewrite H. reflexivity.
Qed.

(** A base-class call answers or fails with an error of its own, and
    leaves the instance as it is. *)
Lemma base_outcome (name : string) (a : Arguments) (st : St) :
  exists r w', base name a st = (of_reply r, (fst st, w')).
Proof.
  unfold base, bind, get_self, ext. simpl.
  destruct (base_call name (fst st) a (snd st)) as [r w']. exists r, w'. reflexivity.
Qed.

(** A base-class call, down to the call itself. *)
Lemma base_reaches (name : string) (a : Arguments) (st : St) :
  base name a st =
  (let (r, w) := base_call name (fst st) a (snd st) in (of_reply r, (fst st, w))).
Proof. unfold base. rewrite bind_get_self. reflexivity. Qed.

Lemma of_reply_not_usage {A} (r : Reply A) (msg : string) :
  of_reply r <> Raise (RuntimeError msg).
Proof. destruct r; discriminate. Qed.

End Dispatch.

Section Switching.
Import DynamicVariable Interface Spec.
Context {B : Backend}.

(** On a dynamic instance [sparse_read] changes the world only, and what
    it raises is the missing [dtype] attribute or an error of the
    framework or the native op. *)
Lemma sparse_read_dynamic (indices name : PyVal) (st : St) :
  is_static (fst st) = false ->
  exists o w',
    sparse_read indices name st = (o, (fst st, w')) /\
    forall msg, o <> Raise (RuntimeError msg).
Proof.
  intro Hdyn. destruct st as [self w]. simpl in Hdyn.
  unfold sparse_read. rewrite bind_get_self. cbn [fst]. rewrite Hdyn, bind_ext.
  destruct (variable_accessed self w) as [[[] | e] w1];
    [ | eexists; eexists; split; [ reflexivity | discriminate ] ].
  unfold bind at 1.
  destruct (getattr_dtype indices) as [d | e] eqn:Hd.
  - destruct (String.eqb d tf_int32).
    + rewrite bind_ext.
      destruct (tf_cast indices tf_int64 w1) as [[cast | e] w2];
        [ | eexists; eexists; split; [ reflexivity | discriminate ] ].
      rewrite ext_run.
      eexists; eexists; split; [ reflexivity | intro; apply of_reply_not_usage ].
    + rewrite bind_ret, ext_run.
      eexists; eexists; split; [ reflexivity | intro; apply of_reply_not_usage ].
  - eexists; eexists; split; [ reflexivity | ].
    intros msg Heq. injection Heq as ->.
    clear - Hd. induction indices; simpl in Hd; try discriminate; auto.
Qed.

(** [to_static] on a dynamic instance with no index set pending: the
    native read first, then the two re-bindings, then the base class's
    [assign] of what was read. *)
Lemma to_static_dynamic (indices : PyVal) (st : St) :
  is_static (fst st) = false -> _indices (fst st) = PyNone ->
  to_static indices st =
  match sparse_read indices PyNone st with
  | (Ok buffer, (self, w)) =>
      base "assign" (args [buffer])
        (set_handle (_tf_handle self) (set_indices indices self), w)
  | (Raise e, st') => (Raise e, st')
  end.
Proof.
  intros Hdyn Hnone. unfold to_static. rewrite bind_get_self, Hdyn, Hnone.
  cbn [negb andb is_None]. unfold bind at 1.
  destruct (sparse_read indices PyNone st) as [[buffer | e] [self w]]; [ | reflexivity ].
  rewrite !bind_modify_self.
  apply static_only_static. cbn [fst]. unfold is_static. simpl. apply Nat.eqb_refl.
Qed.

Lemma to_static_refused (indices : PyVal) (st : St) :
  is_static (fst st) = true \/ _indices (fst st) <> PyNone ->
  to_static indices st
  = (Raise (RuntimeError "to_static() must be called in dynamic mode."), st).
Proof.
  intro H. unfold to_static. rewrite bind_get_self.
  destruct H as [H | H].
  - rewrite H. reflexivity.
  - destruct (_indices (fst st)); try contradiction;
      cbn [is_None]; rewrite andb_false_r; reflexivity.
Qed.

Lemma pending_dec (self : t) :
  {is_static self = false /\ _indices self = PyNone}
  + {is_static self = true \/ _indices self <> PyNone}.
Proof.
  destruct (is_static self) eqn:Hs; [ right; left; reflexivity | ].
  destruct (_indices self) eqn:Hi;
    first [ left; split; reflexivity | right; right; discriminate ].
Qed.

End Switching.

(** C2. [to_static] raises its usage error exactly when the instance is
    already static or an index set is pending, and then changes nothing.
    Hence once a call of [to_static] has returned, a second call (with
    no [to_dynamic] in between) raises that error. *)
Theorem to_static_raises_iff_static_or_pending :
  forall (B : DynamicVariable.Backend) (indices : PyVal) (st : DynamicVariable.St),
    ((exists msg, fst (DynamicVariable.to_static indices st) = Raise (RuntimeError msg)) <->
     (DynamicVariable.is_static (fst st) = true \/
      DynamicVariable._indices (fst st) <> PyNone)) /\
    (DynamicVariable.is_static (fst st) = true \/
     DynamicVariable._indices (fst st) <> PyNone ->
     DynamicVariable.to_static indices st
     = (Raise (RuntimeError "to_static() must be called in dynamic mode."), st)) /\
    (forall (again : PyVal) (buffer : PyVal),
       fst (DynamicVariable.to_static indices st) = Ok buffer ->
       fst (DynamicVariable.to_static again (snd (DynamicVariable.to_static indices st)))
       = Raise (RuntimeError "to_static() must be called in dynamic mode.")).
Proof.
  intros B indices st.
  destruct (pending_dec (fst st)) as [[Hdyn Hnone] | Hbusy].
  - pose proof (to_static_dynamic indices st Hdyn Hnone) as Hrun.
    destruct (sparse_read_dynamic indices PyNone st Hdyn) as (o & w1 & Hread & Hnot).
    rewrite Hread in Hrun.
    split; [ | split ].
    + split.
      * intros [msg Hmsg]. exfalso. rewrite Hrun in Hmsg.
        destruct o as [buffer | e].
        -- destruct (base_outcome "assign" (args [buffer])
                       (DynamicVariable.set_handle (DynamicVariable._tf_handle (fst st))
                          (DynamicVariable.set_indices indices (fst st)), w1))
             as (r & w2 & Hbase).
           rewrite Hbase in Hmsg. simpl in Hmsg. exact (of_reply_not_usage r msg Hmsg).
        -- simpl in Hmsg. exact (Hnot msg Hmsg).
      * intros [Hs | Hi]; [ congruence | contradiction ].
    + intros [Hs | Hi]; [ congruence | contradiction ].
    + intros again buffer Hok. rewrite Hrun in *.
      destruct o as [read | e]; [ | discriminate Hok ].
      destruct (base_outcome "assign" (args [read])
                  (DynamicVariable.set_handle (DynamicVariable._tf_handle (fst st))
                     (DynamicVariable.set_indices indices (fst st)), w1))
        as (r & w2 & Hbase).
      rewrite Hbase. cbn [fst snd].
      rewrite to_static_refused; [ reflexivity | ].
      left. unfold DynamicVariable.is_static. simpl. apply Nat.eqb_refl.
  - pose proof (to_static_refused indices st Hbusy) as Hrun.
    split; [ | split ].
    + split; [ intros _; exact Hbusy | ].
      intros _. eexists. rewrite Hrun. reflexivity.
    + intros _. exact Hrun.
    + intros again buffer Hok. rewrite Hrun in Hok. discriminate Hok.
Qed.

Example to_static_twice_on_recorder :
  fst (@DynamicVariable.to_static Recorder.recorder Recorder.some_indices (Recorder.started None))
  = Ok (PyTensor tf_float32 8) /\
  fst (@DynamicVariable.to_static Recorder.recorder Recorder.some_indices Recorder.switched)
  = Raise (RuntimeError "to_static() must be called in dynamic mode.").
Proof. split; reflexivity. Qed.

Section SwitchingBack.
Import DynamicVariable Interface Spec.
Context {B : Backend}.

Lemma to_dynamic_refused (st : St) :
  is_static (fst st) = false ->
  to_dynamic st = (Raise (RuntimeError "to_dynamic() must be called in static mode."), st).
Proof. intro H. unfold to_dynamic. rewrite bind_get_self, H. reflexivity. Qed.

Lemma dummy_active_is_dynamic (self : t) (v : PyVal) :
  _tf_handle self <> _dummy_handle self ->
  is_static (set_handle (_dummy_handle self) (set_indices v self)) = false.
Proof.
  intro H. apply is_static_false. simpl. intro Heq. apply H. symmetry. exact Heq.
Qed.

Lemma to_dynamic_static (st : St) :
  _tf_handle (fst st) <> _dummy_handle (fst st) ->
  is_static (fst st) = true ->
  to_dynamic st =
  match base_call "read_value" (fst st) no_args (snd st) with
  | (Throws e, w1) => (Raise (Foreign e), (fst st, w1))
  | (Returns buffer, w1) =>
      let self := set_handle (_dummy_handle (fst st)) (set_indices PyNone (fst st)) in
      match convert_to_tensor buffer (_handle_dtype (fst st)) w1 with
      | (Throws e, w2) => (Raise (Foreign e), (self, w2))
      | (Returns values, w2) =>
          let (r, w3) :=
            dummy_var_scatter_update (_dummy_handle (fst st)) (_indices (fst st)) values w2 in
          (of_reply r, (self, w3))
      end
  end.
Proof.
  intros Hneq Hs. destruct st as [self w]. cbn [fst snd] in *.
  unfold to_dynamic. rewrite bind_get_self. cbn [fst]. rewrite Hs.
  unfold base. unfold bind at 1. rewrite bind_get_self. cbn [fst]. rewrite ext_run.
  destruct (base_call "read_value" self no_args w) as [[buffer | e] w1]; cbn [fst snd of_reply];
    [ | reflexivity ].
  rewrite !bind_modify_self.
  change (_dummy_handle (set_indices PyNone self)) with (_dummy_handle self).
  unfold scatter_update. rewrite bind_get_self. cbn [fst].
  rewrite (dummy_active_is_dynamic self PyNone Hneq), bind_ext.
  unfold dtype. cbn [_handle_dtype set_handle set_indices _dummy_handle].
  destruct (convert_to_tensor buffer (_handle_dtype self) w1) as [[values | e] w2];
    [ | reflexivity ].
  unfold ext. cbn [fst snd].
  destruct (dummy_var_scatter_update (_dummy_handle self) (_indices self) values w2);
    reflexivity.
Qed.

Lemma to_static_returned (indices buffer : PyVal) (st st' : St) :
  to_static indices st = (Ok buffer, st') ->
  (is_static (fst st) = false /\ _indices (fst st) = PyNone) /\
  fst st' = set_handle (_tf_handle (fst st)) (set_indices indices (fst st)).
Proof.
  intro Hok.
  destruct (pending_dec (fst st)) as [[Hdyn Hnone] | Hbusy].
  - split; [ split; assumption | ].
    rewrite (to_static_dynamic indices st Hdyn Hnone) in Hok.
    destruct (sparse_read_dynamic indices PyNone st Hdyn) as (o & w1 & Hread & _).
    rewrite Hread in Hok. destruct o as [read | e]; [ | discriminate Hok ].
    destruct (base_outcome "assign" (args [read])
                (set_handle (_tf_handle (fst st)) (set_indices indices (fst st)), w1))
      as (r & w2 & Hbase).
    rewrite Hbase in Hok. injection Hok as _ <-. reflexivity.
  - rewrite (to_static_refused indices st Hbusy) in Hok. discriminate Hok.
Qed.

Lemma to_dynamic_returned (r : PyVal) (st st' : St) :
  _tf_handle (fst st) <> _dummy_handle (fst st) ->
  to_dynamic st = (Ok r, st') ->
  is_static (fst st) = true /\
  fst st' = set_handle (_dummy_handle (fst st)) (set_indices PyNone (fst st)).
Proof.
  intros Hneq Hok. destruct (is_static (fst st)) eqn:Hs.
  - split; [ reflexivity | ].
    rewrite (to_dynamic_static st Hneq Hs) in Hok.
    destruct (base_call "read_value" (fst st) no_args (snd st)) as [[buffer | e] w1];
      [ | discriminate Hok ].
    cbv zeta in Hok.
    destruct (convert_to_tensor buffer (_handle_dtype (fst st)) w1) as [[values | e] w2];
      [ | discriminate Hok ].
    destruct (dummy_var_scatter_update (_dummy_handle (fst st)) (_indices (fst st)) values w2)
      as [reply w3].
    injection Hok as _ <-. reflexivity.
  - rewrite (to_dynamic_refused st Hs) in Hok. discriminate Hok.
Qed.

End SwitchingBack.

(** C3. [to_dynamic] on a dynamic instance raises its usage error and
    changes nothing.  On a static instance it has the base class read
    the whole buffer, re-binds [_indices] to [None] and the active handle
    to the native store's, and hands the buffer, keyed by the indices
    that [to_static] had recorded, to the native scatter-update; an error
    of the framework or of the native op ends it where it occurs. *)
Theorem to_dynamic_legal_only_in_static_mode :
  forall (B : DynamicVariable.Backend) (st : DynamicVariable.St),
    Spec.exclusive (fst st) ->
    (DynamicVariable.is_static (fst st) = false ->
     DynamicVariable.to_dynamic st
     = (Raise (RuntimeError "to_dynamic() must be called in static mode."), st)) /\
    (DynamicVariable.is_static (fst st) = true ->
     DynamicVariable.to_dynamic st =
     match DynamicVariable.base_call "read_value" (fst st) no_args (snd st) with
     | (Throws e, w1) => (Raise (Foreign e), (fst st, w1))
     | (Returns buffer, w1) =>
         let self :=
           DynamicVariable.set_handle (DynamicVariable._dummy_handle (fst st))
             (DynamicVariable.set_indices PyNone (fst st)) in
         match DynamicVariable.convert_to_tensor buffer
                 (DynamicVariable._handle_dtype (fst st)) w1 with
         | (Throws e, w2) => (Raise (Foreign e), (self, w2))
         | (Returns values, w2) =>
             let (r, w3) :=
               DynamicVariable.dummy_var_scatter_update
                 (DynamicVariable._dummy_handle (fst st))
                 (DynamicVariable._indices (fst st)) values w2 in
             (of_reply r, (self, w3))
         end
     end).
Proof.
  intros B st [Hneq _]. split.
  - apply to_dynamic_refused.
  - apply to_dynamic_static. exact Hneq.
Qed.

Lemma to_dynamic_legal_only_in_static_mode_witness :
  Spec.exclusive (fst Recorder.switched) /\
  @DynamicVariable.to_dynamic Recorder.recorder (Recorder.started None)
  = (Raise (RuntimeError "to_dynamic() must be called in static mode."), Recorder.started None) /\
  fst (@DynamicVariable.to_dynamic Recorder.recorder Recorder.switched)
  = Ok (PyTensor "resource" 11) /\
  DynamicVariable._indices (fst (snd (@DynamicVariable.to_dynamic Recorder.recorder Recorder.switched)))
  = PyNone.
Proof.
  assert (Hstarted : Spec.exclusive (fst (Recorder.started None)))
    by (split; [ discriminate | right; reflexivity ]).
  assert (Hswitched : Spec.exclusive (fst Recorder.switched))
    by (split; [ discriminate | left; reflexivity ]).
  split; [ exact Hswitched | split ].
  - exact (proj1 (to_dynamic_legal_only_in_static_mode Recorder.recorder
                    (Recorder.started None) Hstarted) eq_refl).
  - rewrite (proj2 (to_dynamic_legal_only_in_static_mode Recorder.recorder
                      Recorder.switched Hswitched) eq_refl).
    split; reflexivity.
Defined.

(** C4. On a dynamic instance with no index set pending, when
    [to_static(indices)] and then [to_dynamic()] have both returned the
    instance is as it was before the two calls: the native store's
    handle is active again, [_indices] is [None] again, and
    [is_static()] is false. *)
Theorem to_static_then_to_dynamic_restores :
  forall (B : DynamicVariable.Backend) (indices r : PyVal) (st st' : DynamicVariable.St),
    Spec.exclusive (fst st) ->
    DynamicVariable.is_static (fst st) = false ->
    DynamicVariable._indices (fst st) = PyNone ->
    bind (DynamicVariable.to_static indices) (fun _ => DynamicVariable.to_dynamic) st
    = (Ok r, st') ->
    fst st' = fst st /\
    DynamicVariable._handle (fst st') = DynamicVariable._dummy_handle (fst st) /\
    DynamicVariable._indices (fst st') = PyNone /\
    DynamicVariable.is_static (fst st') = false.
Proof.
  intros B indices r st st' [Hneq Hone] Hdyn Hnone Hseq.
  apply bind_returned in Hseq. destruct Hseq as (buffer & st1 & Hfirst & Hsecond).
  apply to_static_returned in Hfirst. destruct Hfirst as [_ Hst1].
  assert (Hneq1 : DynamicVariable._tf_handle (fst st1) <> DynamicVariable._dummy_handle (fst st1))
    by (rewrite Hst1; exact Hneq).
  apply (to_dynamic_returned r st1 st' Hneq1) in Hsecond. destruct Hsecond as [_ Hst'].
  assert (Hactive : DynamicVariable._handle (fst st) = DynamicVariable._dummy_handle (fst st)).
  { destruct Hone as [Hone | Hone]; [ | exact Hone ].
    apply is_static_false in Hdyn. contradiction. }
  assert (Hback : fst st' = fst st).
  { rewrite Hst', Hst1. destruct (fst st) as [k d n i m nm tf dm h op].
    simpl in *. subst. reflexivity. }
  rewrite Hback. repeat split; assumption.
Qed.

Lemma to_static_then_to_dynamic_restores_witness :
  fst (snd (bind (@DynamicVariable.to_static Recorder.recorder Recorder.some_indices)
              (fun _ => DynamicVariable.to_dynamic) (Recorder.started None)))
  = Recorder.variable None.
Proof.
  refine (proj1 (to_static_then_to_dynamic_restores Recorder.recorder Recorder.some_indices
                   (PyTensor "resource" 11) (Recorder.started None) _ _ eq_refl eq_refl eq_refl)).
  split; [ discriminate | right; reflexivity ].
Defined.

Lemma to_static_raises_iff_static_or_pending_witness :
  fst (@DynamicVariable.to_static Recorder.recorder Recorder.some_indices
         (snd (@DynamicVariable.to_static Recorder.recorder Recorder.some_indices
                 (Recorder.started None))))
  = Raise (RuntimeError "to_static() must be called in dynamic mode.").
Proof.
  exact (proj2 (proj2 (to_static_raises_iff_static_or_pending Recorder.recorder
                         Recorder.some_indices (Recorder.started None)))
               Recorder.some_indices (PyTensor tf_float32 8) eq_refl).
Defined.

(** C5. Each of [sparse_read], [scatter_sub], [scatter_add] and
    [scatter_update] looks at the mode first.  On a static instance it
    calls the base class's method of the same name with the same
    arguments, in the same order, and answers what that call answers.
    On a dynamic instance [sparse_read] is the native read;
    a delta that is not an [IndexedSlices] makes the three scatter
    methods raise [TypeError] and change nothing; given an
    [IndexedSlices], [scatter_add] and [scatter_update] are the native
    scatter-add and scatter-update of its indices and values, and
    [scatter_sub] is the native scatter-add of the negated values. *)
Theorem read_write_dispatch_on_mode :
  forall (B : DynamicVariable.Backend) (st : DynamicVariable.St)
         (indices name sparse_delta use_locking : PyVal),
    (DynamicVariable.is_static (fst st) = true ->
     let reached (method : string) (passed : list PyVal) :=
       let (r, w) :=
         DynamicVariable.base_call method (fst st)
           {| positional := passed; keywords := [] |} (snd st) in
       (of_reply r, (fst st, w)) in
     DynamicVariable.sparse_read indices name st
     = reached "sparse_read" [indices; name] /\
     DynamicVariable.scatter_sub sparse_delta use_locking name st
     = reached "scatter_sub" [sparse_delta; use_locking; name] /\
     DynamicVariable.scatter_add sparse_delta use_locking name st
     = reached "scatter_add" [sparse_delta; use_locking; name] /\
     DynamicVariable.scatter_update sparse_delta use_locking name st
     = reached "scatter_update" [sparse_delta; use_locking; name]) /\
    (DynamicVariable.is_static (fst st) = false ->
     DynamicVariable.sparse_read indices name st = Spec.native_read (fst st) indices st /\
     (is_IndexedSlices sparse_delta = false ->
      let refusal :=
        (Raise (TypeError ("sparse_delta is not IndexedSlices: "
                             ++ DynamicVariable.str_of sparse_delta)), st) in
      DynamicVariable.scatter_sub sparse_delta use_locking name st = refusal /\
      DynamicVariable.scatter_add sparse_delta use_locking name st = refusal /\
      DynamicVariable.scatter_update sparse_delta use_locking name st = refusal) /\
     (forall values keys dense_shape,
        sparse_delta = PyIndexedSlices values keys dense_shape ->
        DynamicVariable.scatter_sub sparse_delta use_locking name st
        = bind (DynamicVariable.ext (DynamicVariable.tf_neg values))
            (fun negated =>
               Spec.native_scatter DynamicVariable.dummy_var_scatter_add (fst st) keys negated)
            st /\
        DynamicVariable.scatter_add sparse_delta use_locking name st
        = Spec.native_scatter DynamicVariable.dummy_var_scatter_add (fst st) keys values st /\
        DynamicVariable.scatter_update sparse_delta use_locking name st
        = Spec.native_scatter DynamicVariable.dummy_var_scatter_update (fst st) keys values st)).
Proof.
  intros B st indices name sparse_delta use_locking. split; intro Hmode.
  - intro reached.
    unfold DynamicVariable.sparse_read, DynamicVariable.scatter_sub,
      DynamicVariable.scatter_add, DynamicVariable.scatter_update.
    rewrite !bind_get_self, Hmode. subst reached.
    rewrite !base_reaches. repeat split.
  - unfold DynamicVariable.sparse_read, DynamicVariable.scatter_sub,
      DynamicVariable.scatter_add, DynamicVariable.scatter_update.
    rewrite !bind_get_self, Hmode. split; [ reflexivity | split ].
    + intros Hnot.
      destruct sparse_delta; try discriminate Hnot; repeat split.
    + intros values keys dense_shape ->. repeat split.
Qed.

Lemma read_write_dispatch_on_mode_witness :
  @DynamicVariable.scatter_add Recorder.recorder (PyTensor tf_float32 3) (PyBool false) PyNone
    (Recorder.started None)
  = (Raise (TypeError "sparse_delta is not IndexedSlices: Tensor"), Recorder.started None) /\
  @DynamicVariable.scatter_add Recorder.recorder (PyTensor tf_float32 3) (PyBool false) PyNone
    Recorder.switched
  = (Ok (PyTensor tf_float32 9),
     (fst Recorder.switched,
      Recorder.noted "ResourceVariable.scatter_add" (snd Recorder.switched))).
Proof.
  split.
  - exact (proj1 (proj1 (proj2 (proj2
             (read_write_dispatch_on_mode Recorder.recorder (Recorder.started None)
                Recorder.some_indices PyNone (PyTensor tf_float32 3) (PyBool false))
             eq_refl)) eq_refl)).
  - exact (proj1 (proj2 (proj2 (proj1
             (read_write_dispatch_on_mode Recorder.recorder Recorder.switched
                Recorder.some_indices PyNone (PyTensor tf_float32 3) (PyBool false))
             eq_refl)))).
Defined.

(** On a dynamic instance [scatter_sub] of a delta is [scatter_add] of
    the delta with its values negated. *)
Lemma scatter_sub_is_scatter_add_of_negation :
  forall (B : DynamicVariable.Backend) (self : DynamicVariable.t) (w w1 : DynamicVariable.World)
         (values negated keys dense_shape use_locking name : PyVal),
    DynamicVariable.is_static self = false ->
    DynamicVariable.tf_neg values w = (Returns negated, w1) ->
    DynamicVariable.scatter_sub (PyIndexedSlices values keys dense_shape) use_locking name (self, w)
    = DynamicVariable.scatter_add (PyIndexedSlices negated keys dense_shape) use_locking name
        (self, w1).
Proof.
  intros B self w w1 values negated keys dense_shape use_locking name Hdyn Hneg.
  unfold DynamicVariable.scatter_sub, DynamicVariable.scatter_add.
  rewrite !bind_get_self. cbn [fst]. rewrite Hdyn.
  rewrite (bind_ext (DynamicVariable.tf_neg values)), Hneg. reflexivity.
Qed.

(** C6, as worded, fails: [to_proto] on a static instance does not reach
    the base class; it raises and no call is made. *)
Lemma to_proto_refused_on_static_instance :
  DynamicVariable.is_static (fst Recorder.switched) = true /\
  @DynamicVariable.to_proto Recorder.recorder no_args Recorder.switched
  = (Raise (NotImplementedError "to_proto() is not supported."), Recorder.switched) /\
  fst (@DynamicVariable.base_call Recorder.recorder "to_proto" (fst Recorder.switched) no_args
         (snd Recorder.switched))
  = Returns (PyTensor tf_float32 9) /\
  ~ @Spec.gated_on_mode Recorder.recorder DynamicVariable.to_proto "to_proto".
Proof.
  repeat split.
  intro Hgated.
  destruct (Hgated no_args Recorder.switched) as [_ Hstatic].
  specialize (Hstatic eq_refl). unfold Spec.delegates in Hstatic.
  discriminate Hstatic.
Qed.

(** C6, amended.  Called with arguments their declaration admits, the
    methods of the section "only supported in static mode"
    ([is_initialized], [_read_variable_op], [value],
    [_dense_var_to_tensor], [_gather_saveables_for_checkpoint],
    [gather_nd], [assign_add], [assign], [scatter_max], [scatter_min],
    [scatter_mul], [scatter_dim], [batch_scatter_update],
    [scatter_nd_sub], [scatter_nd_update], [_strided_slice_assign],
    [__int__]) raise [NotImplementedError] "<name>() is not supported in
    dynamic mode." on a dynamic instance, changing nothing.  On a static
    instance each of them whose name the base class defines (all but
    [scatter_dim]) calls the base class's method of the same name with
    the same arguments and answers what that call answers.
    [__deepcopy__], [__reduce__], [to_proto], [from_proto] and
    [set_shape] raise [NotImplementedError] "<name>() is not supported."
    in either mode, changing nothing. *)
Theorem framework_operations_by_mode :
  forall (B : DynamicVariable.Backend) (a : Arguments) (st : DynamicVariable.St),
    (forall m : Interface.StaticOnly,
       Interface.takes_arguments m = true \/ a = no_args ->
       (DynamicVariable.is_static (fst st) = false ->
        Interface.call_static_only m a st
        = (Raise (NotImplementedError
                    (Interface.static_only_name m ++ "() is not supported in dynamic mode.")),
           st)) /\
       (DynamicVariable.is_static (fst st) = true ->
        Interface.in_base_class m = true ->
        Interface.call_static_only m a st
        = (let (r, w) :=
             DynamicVariable.base_call (Interface.static_only_name m) (fst st) a (snd st) in
           (of_reply r, (fst st, w))))) /\
    (forall m : Interface.Unsupported,
       Interface.call_unsupported m a st
       = (Raise (NotImplementedError (Interface.unsupported_name m ++ "() is not supported.")),
          st)).
Proof.
  intros B a st. split.
  - intros m Harity. split.
    + intro Hmode.
      destruct m; destruct Harity as [Htakes | ->]; try discriminate Htakes;
        first [ exact (static_only_dynamic _ _ st Hmode)
              | unfold Interface.call_static_only, DynamicVariable.scatter_dim;
                rewrite bind_get_self, Hmode; reflexivity ].
    + intros Hmode Hbase.
      destruct m; try discriminate Hbase; destruct Harity as [Htakes | ->];
        try discriminate Htakes;
        unfold Interface.call_static_only, Interface.without_arguments;
        cbn [positional keywords no_args Interface.static_only_name];
        rewrite <- base_reaches; exact (static_only_static _ _ st Hmode).
  - intro m. destruct m; reflexivity.
Qed.

Lemma framework_operations_by_mode_witness :
  @DynamicVariable.assign Recorder.recorder (args [PyTensor tf_float32 3]) (Recorder.started None)
  = (Raise (NotImplementedError "assign() is not supported in dynamic mode."),
     Recorder.started None) /\
  @DynamicVariable.assign Recorder.recorder (args [PyTensor tf_float32 3]) Recorder.switched
  = (Ok (PyTensor tf_float32 9),
     (fst Recorder.switched, Recorder.noted "ResourceVariable.assign" (snd Recorder.switched))) /\
  @DynamicVariable.value Recorder.recorder Recorder.switched
  = (Ok (PyTensor tf_float32 9),
     (fst Recorder.switched, Recorder.noted "ResourceVariable.value" (snd Recorder.switched))) /\
  @DynamicVariable.set_shape Recorder.recorder (args [PyTensorShape [None; Some 8]])
    Recorder.switched
  = (Raise (NotImplementedError "set_shape() is not supported."), Recorder.switched).
Proof.
  split; [ | split; [ | split ] ].
  - exact (proj1 (proj1 (framework_operations_by_mode Recorder.recorder
                           (args [PyTensor tf_float32 3]) (Recorder.started None))
                    Interface.m_assign (or_introl eq_refl)) eq_refl).
  - exact (proj2 (proj1 (framework_operations_by_mode Recorder.recorder
                           (args [PyTensor tf_float32 3]) Recorder.switched)
                    Interface.m_assign (or_introl eq_refl)) eq_refl eq_refl).
  - exact (proj2 (proj1 (framework_operations_by_mode Recorder.recorder
                           no_args Recorder.switched)
                    Interface.m_value (or_intror eq_refl)) eq_refl eq_refl).
  - exact (proj2 (framework_operations_by_mode Recorder.recorder
                    (args [PyTensorShape [None; Some 8]]) Recorder.switched)
                 Interface.m_set_shape).
Defined.

(** C8. With a mode that starts with "localized", reading [target_gpu]
    raises [RuntimeError] exactly when the device index asked for by
    the mode string (what [int] reads in its second colon-separated
    field) is at least the number of GPUs; a smaller index is
    returned.  With no mode, or a mode that does not start with
    "localized", the property is [-1].  The instance and the world are
    left as they are in every case. *)
Theorem target_gpu_raises_iff_out_of_range :
  forall (B : DynamicVariable.Backend) (st : DynamicVariable.St),
    (forall mode,
       DynamicVariable._mode (fst st) = Some mode ->
       String.prefix "localized" mode = true ->
       ((exists msg, fst (DynamicVariable.target_gpu st) = Raise (RuntimeError msg)) <->
        (exists g, Spec.requested_gpu mode = Some g /\
                   g >= DynamicVariable.communication_num_gpus (snd st))) /\
       (forall g, Spec.requested_gpu mode = Some g ->
                  g < DynamicVariable.communication_num_gpus (snd st) ->
                  fst (DynamicVariable.target_gpu st) = Ok g)) /\
    (DynamicVariable._mode (fst st) = None \/
     (exists mode, DynamicVariable._mode (fst st) = Some mode /\
                   String.prefix "localized" mode = false) ->
     fst (DynamicVariable.target_gpu st) = Ok (-1)) /\
    snd (DynamicVariable.target_gpu st) = st.
Proof.
  intros B st. unfold DynamicVariable.target_gpu. rewrite bind_get_self.
  split; [ | split ].
  - intros mode Hmode Hprefix. rewrite Hmode, Hprefix. unfold Spec.requested_gpu.
    destruct (nth_error (split ":" mode) 1) as [field | ].
    + destruct (DynamicVariable.builtin_int field) as [g | message].
      * unfold DynamicVariable.num_gpus, bind. cbn [fst snd].
        destruct (g >=? DynamicVariable.communication_num_gpus (snd st)) eqn:Hcmp.
        -- apply Z.geb_le in Hcmp. split.
           ++ split.
              ** intros _. exists g. split; [ reflexivity | lia ].
              ** intros _. eexists. reflexivity.
           ++ intros g' Hg' Hlt. injection Hg' as <-. lia.
        -- assert (Hlt : g < DynamicVariable.communication_num_gpus (snd st)).
           { destruct (Z.ltb_spec g (DynamicVariable.communication_num_gpus (snd st)))
               as [Hl | Hl]; [ exact Hl | ].
             apply Z.geb_le in Hl. congruence. }
           split.
           ++ split.
              ** intros [msg Hmsg]. discriminate Hmsg.
              ** intros (g' & Hg' & Hge). injection Hg' as <-. lia.
           ++ intros g' Hg' _. injection Hg' as <-. reflexivity.
      * split.
        -- split; [ intros [msg Hmsg]; discriminate Hmsg | intros (g & Hg & _); discriminate Hg ].
        -- intros g Hg. discriminate Hg.
    + split.
      * split; [ intros [msg Hmsg]; discriminate Hmsg | intros (g & Hg & _); discriminate Hg ].
      * intros g Hg. discriminate Hg.
  - intros [Hnone | (mode & Hmode & Hprefix)].
    + rewrite Hnone. reflexivity.
    + rewrite Hmode, Hprefix. reflexivity.
  - destruct (DynamicVariable._mode (fst st)) as [mode | ]; [ | reflexivity ].
    destruct (String.prefix "localized" mode); [ | reflexivity ].
    destruct (nth_error (split ":" mode) 1) as [field | ]; [ | reflexivity ].
    destruct (DynamicVariable.builtin_int field) as [g | message]; [ | reflexivity ].
    unfold DynamicVariable.num_gpus, bind. cbn [fst snd].
    destruct (g >=? DynamicVariable.communication_num_gpus (snd st)); reflexivity.
Qed.

Lemma target_gpu_raises_iff_out_of_range_witness :
  (exists msg,
     fst (@DynamicVariable.target_gpu Recorder.recorder (Recorder.started (Some "localized:2")))
     = Raise (RuntimeError msg)) /\
  fst (@DynamicVariable.target_gpu Recorder.recorder (Recorder.started (Some "localized:1")))
  = Ok 1 /\
  fst (@DynamicVariable.target_gpu Recorder.recorder (Recorder.started (Some "distributed")))
  = Ok (-1).
Proof.
  split; [ | split ].
  - apply (proj1 (target_gpu_raises_iff_out_of_range Recorder.recorder
                    (Recorder.started (Some "localized:2"))) "localized:2" eq_refl eq_refl).
    exists 2. split; [ reflexivity | simpl; lia ].
  - apply (proj1 (target_gpu_raises_iff_out_of_range Recorder.recorder
                    (Recorder.started (Some "localized:1"))) "localized:1" eq_refl eq_refl).
    + reflexivity.
    + simpl. lia.
  - apply (proj1 (proj2 (target_gpu_raises_iff_out_of_range Recorder.recorder
                           (Recorder.started (Some "distributed"))))).
    right. exists "distributed". split; reflexivity.
Defined.

Example target_gpu_on_mode_without_index :
  fst (@DynamicVariable.target_gpu Recorder.recorder (Recorder.started (Some "localized")))
  = Raise (IndexError "list index out of range") /\
  fst (@DynamicVariable.target_gpu Recorder.recorder (Recorder.started (Some "localized:first")))
  = Raise (ValueError "invalid literal for int() with base 10: 'first'").
Proof. split; reflexivity. Qed.

Example target_gpu_on_separator_byte :
  fst (@DynamicVariable.target_gpu Recorder.recorder
         (Recorder.started (Some ("localized:" ++ String (ascii_of_nat 28) "2"))))
  = Raise (ValueError "invalid literal for int() with base 10: '\x1c2'").
Proof. reflexivity. Qed.

(** C10. Handed anything that is not a [DynamicVariable], [export] and
    [assign] return [None]: they raise nothing and make no call into
    the native layer or the framework, so the world is untouched. *)
Theorem export_and_assign_ignore_other_values :
  forall (B : DynamicVariable.Backend) (v indices values : PyVal) (w : DynamicVariable.World),
    dynamic_variable.export (Other v) w = (Ok None, w) /\
    dynamic_variable.assign (Other v) indices values w = (Ok PyNone, w).
Proof. intros B v indices values w. split; reflexivity. Qed.

Example export_and_assign_on_recorder :
  Recorder.journal (snd (@dynamic_variable.export Recorder.recorder (Other PyNone) Recorder.boot))
  = [] /\
  Recorder.journal
    (snd (@dynamic_variable.export Recorder.recorder (Instance (Recorder.variable None))
            Recorder.boot))
  = ["identity"; "identity"; "dummy_var_export"] /\
  Recorder.journal
    (snd (@dynamic_variable.assign Recorder.recorder (Instance (Recorder.variable None))
            Recorder.some_indices (PyTensor tf_float32 5) Recorder.boot))
  = ["dummy_var_assign"].
Proof. repeat split. Qed.

(** ** Calls that leave the instance alone *)

Section Untouched.
Import DynamicVariable Interface Spec Lifecycle.
Context {B : Backend}.

Lemma reads_only_still {A} (f : St -> Outcome A) : reads_only (fun st => (f st, st)).
Proof. intro st. reflexivity. Qed.

Lemma reads_only_ret {A} (a : A) : reads_only (@ret St A a).
Proof. apply (reads_only_still (fun _ => Ok a)). Qed.

Lemma reads_only_raise {A} (e : Exn) : reads_only (@raise St A e).
Proof. apply (reads_only_still (fun _ => Raise e)). Qed.

Lemma reads_only_get_self : reads_only get_self.
Proof. apply (reads_only_still (fun st => Ok (fst st))). Qed.

Lemma reads_only_ext {A} (f : External World A) : reads_only (ext f).
Proof. intros [self w]. rewrite ext_run. reflexivity. Qed.

Lemma reads_only_bind {A C} (m : Method A) (k : A -> Method C) :
  reads_only m -> (forall a, reads_only (k a)) -> reads_only (bind m k).
Proof.
  intros Hm Hk st. unfold bind. specialize (Hm st).
  destruct (m st) as [[a | e] st']; simpl in *.
  - rewrite Hk. exact Hm.
  - exact Hm.
Qed.

Lemma reads_only_base (name : string) (a : Arguments) : reads_only (base name a).
Proof.
  unfold base. apply reads_only_bind; [ apply reads_only_get_self | intro; apply reads_only_ext ].
Qed.

Create HintDb untouched.
#[local] Hint Resolve reads_only_ret reads_only_raise reads_only_get_self reads_only_ext
  reads_only_base : untouched.

Ltac untouched :=
  repeat first
    [ apply reads_only_bind; [ | intro ]
    | match goal with
      | |- reads_only (if ?b then _ else _) => destruct b
      | |- reads_only (match ?x with _ => _ end) => destruct x
      end
    | solve [ auto with untouched ]
    | apply reads_only_still ].

Lemma reads_only_static_only (name : string) (a : Arguments) : reads_only (static_only name a).
Proof. unfold static_only. untouched. Qed.

Lemma reads_only_without_arguments (name : string) (m : Method PyVal) (a : Arguments) :
  reads_only m -> reads_only (without_arguments name m a).
Proof.
  intro Hm. unfold without_arguments.
  destruct (positional a); destruct (keywords a); first [ exact Hm | apply reads_only_raise ].
Qed.

Lemma reads_only_scatter_dim (a : Arguments) : reads_only (scatter_dim a).
Proof. unfold scatter_dim. untouched. Qed.

Lemma reads_only_call_static_only (m : StaticOnly) (a : Arguments) :
  reads_only (call_static_only m a).
Proof.
  destruct m;
    first [ apply reads_only_static_only
          | apply reads_only_without_arguments; apply reads_only_static_only
          | apply reads_only_scatter_dim ].
Qed.

Lemma reads_only_sparse_read (indices name : PyVal) : reads_only (sparse_read indices name).
Proof. unfold sparse_read. untouched. Qed.

Lemma reads_only_scatter_update (d l n : PyVal) : reads_only (scatter_update d l n).
Proof. unfold scatter_update, not_IndexedSlices. untouched. Qed.

Lemma reads_only_scatter_add (d l n : PyVal) : reads_only (scatter_add d l n).
Proof. unfold scatter_add, not_IndexedSlices. untouched. Qed.

Lemma reads_only_scatter_sub (d l n : PyVal) : reads_only (scatter_sub d l n).
Proof. unfold scatter_sub, not_IndexedSlices. untouched. Qed.

Lemma reads_only_target_gpu : reads_only target_gpu.
Proof. unfold target_gpu, num_gpus. untouched. Qed.

Lemma perform_reads_only (c : Call) (st : St) :
  switches c = false -> fst (perform c st) = fst st.
Proof.
  destruct c; simpl; intro Hc; try discriminate Hc; unfold after, on_world;
    first
      [ apply reads_only_target_gpu
      | apply reads_only_sparse_read | apply reads_only_scatter_sub
      | apply reads_only_scatter_add | apply reads_only_scatter_update
      | apply reads_only_call_static_only
      | destruct m; apply (@reads_only_raise PyVal)
      | apply (reads_only_bind get_self); [ apply reads_only_get_self | intro; untouched ]
      | reflexivity ].
Qed.

End Untouched.

(** ** The two switches, step by step *)

Section Switches.
Import DynamicVariable Interface Spec Lifecycle.
Context {B : Backend}.

Lemma sparse_read_is_native_read (indices name : PyVal) (st : St) :
  is_static (fst st) = false ->
  sparse_read indices name st = native_read (fst st) indices st.
Proof. intro H. unfold sparse_read. rewrite bind_get_self, H. reflexivity. Qed.

Lemma native_read_returned (self : t) (indices buffer : PyVal) (st st' : St) :
  native_read self indices st = (Ok buffer, st') -> has_dtype indices.
Proof.
  unfold native_read. intro H.
  apply bind_returned in H. destruct H as (_ & st1 & _ & H).
  apply bind_returned in H. destruct H as (d & st2 & Hd & _).
  exists d. injection Hd as Hd _. exact Hd.
Qed.

Lemma has_dtype_not_None (v : PyVal) : has_dtype v -> v <> PyNone.
Proof. intros [d Hd] ->. discriminate Hd. Qed.

(** [to_static] either leaves the instance as it was, and then it has
    raised, or has made both re-bindings. *)
Lemma to_static_effect (indices : PyVal) (st : St) :
  (fst (snd (to_static indices st)) = fst st /\
   exists e, fst (to_static indices st) = Raise e) \/
  (is_static (fst st) = false /\ _indices (fst st) = PyNone /\ has_dtype indices /\
   fst (snd (to_static indices st)) = made_static indices (fst st)).
Proof.
  destruct (pending_dec (fst st)) as [[Hdyn Hnone] | Hbusy].
  - rewrite (to_static_dynamic indices st Hdyn Hnone).
    destruct (sparse_read_dynamic indices PyNone st Hdyn) as (o & w1 & Hread & _).
    pose proof (sparse_read_is_native_read indices PyNone st Hdyn) as Hnative.
    rewrite Hread in *. destruct o as [buffer | e].
    + right. repeat split; try assumption.
      * symmetry in Hnative. exact (native_read_returned _ _ _ _ _ Hnative).
      * destruct (base_outcome "assign" (args [buffer])
                    (set_handle (_tf_handle (fst st)) (set_indices indices (fst st)), w1))
          as (r & w2 & Hbase).
        rewrite Hbase. reflexivity.
    + left. split; [ reflexivity | exists e; reflexivity ].
  - left. rewrite (to_static_refused indices st Hbusy).
    split; [ reflexivity | eexists; reflexivity ].
Qed.

(** [to_dynamic] on a static instance, up to its last call. *)
Lemma to_dynamic_on_static (st : St) :
  is_static (fst st) = true ->
  to_dynamic st =
  match base_call "read_value" (fst st) no_args (snd st) with
  | (Throws e, w1) => (Raise (Foreign e), (fst st, w1))
  | (Returns buffer, w1) =>
      scatter_update
        (PyIndexedSlices buffer (_indices (fst st)) (PyTensorShape (shape (fst st))))
        (PyBool false) PyNone (made_dynamic (fst st), w1)
  end.
Proof.
  intro Hs. destruct st as [self w]. cbn [fst snd] in *.
  unfold to_dynamic. rewrite bind_get_self. cbn [fst]. rewrite Hs.
  unfold base. unfold bind at 1. rewrite bind_get_self. cbn [fst]. rewrite ext_run.
  destruct (base_call "read_value" self no_args w) as [[buffer | e] w1]; cbn [fst snd of_reply];
    [ | reflexivity ].
  rewrite !bind_modify_self. reflexivity.
Qed.

(** [to_dynamic] either leaves the instance as it was, and then it has
    raised, or has made both re-bindings. *)
Lemma to_dynamic_effect (st : St) :
  (fst (snd (to_dynamic st)) = fst st /\ exists e, fst (to_dynamic st) = Raise e) \/
  (is_static (fst st) = true /\ fst (snd (to_dynamic st)) = made_dynamic (fst st)).
Proof.
  destruct (is_static (fst st)) eqn:Hs.
  - rewrite (to_dynamic_on_static st Hs).
    destruct (base_call "read_value" (fst st) no_args (snd st)) as [[buffer | e] w1].
    + right. split; [ reflexivity | ]. rewrite reads_only_scatter_update. reflexivity.
    + left. split; [ reflexivity | eexists; reflexivity ].
  - left. rewrite (to_dynamic_refused st Hs). split; [ reflexivity | eexists; reflexivity ].
Qed.

Lemma made_static_settled (indices : PyVal) (self : t) :
  has_dtype indices -> settled (made_static indices self).
Proof.
  intro Hd. split.
  - intros _. exact Hd.
  - intro Hs. unfold is_static, made_static in Hs. simpl in Hs.
    rewrite Nat.eqb_refl in Hs. discriminate Hs.
Qed.

Lemma made_dynamic_settled (self : t) :
  _tf_handle self <> _dummy_handle self -> settled (made_dynamic self).
Proof.
  intro Hneq. split.
  - intro Hs. unfold made_dynamic in Hs.
    rewrite (dummy_active_is_dynamic self PyNone Hneq) in Hs. discriminate Hs.
  - intros _. reflexivity.
Qed.

Lemma perform_settled (c : Call) (st : St) :
  _tf_handle (fst st) <> _dummy_handle (fst st) ->
  settled (fst st) -> settled (fst (perform c st)).
Proof.
  intros Hneq Hset. destruct (switches c) eqn:Hc.
  - destruct c as [ | idx | | | | | | | | | | ? | ? ? | ? ? ? | ? ? ? | ? ? ? | ? ? | ? ? | | ? ? ];
      try discriminate Hc; simpl; unfold after.
    + destruct (to_static_effect idx st) as [[Hsame _] | (_ & _ & Hd & Hdone)].
      * rewrite Hsame. exact Hset.
      * rewrite Hdone. apply made_static_settled. exact Hd.
    + destruct (to_dynamic_effect st) as [[Hsame _] | (_ & Hdone)].
      * rewrite Hsame. exact Hset.
      * rewrite Hdone. apply made_dynamic_settled. exact Hneq.
  - rewrite (perform_reads_only c st Hc). exact Hset.
Qed.

Lemma run_settled (origin : t) (calls : list Call) :
  _tf_handle origin <> _dummy_handle origin ->
  forall st, anchored origin (fst st) -> settled (fst st) ->
             settled (fst (run calls st)).
Proof.
  intro Hneq. induction calls as [| c calls IH]; intros st Hanch Hset; simpl.
  - exact Hset.
  - apply IH.
    + apply perform_anchored. exact Hanch.
    + apply perform_settled; [ | exact Hset ].
      destruct Hanch as [_ _ _ _ Htf Hdummy _]. rewrite Htf, Hdummy. exact Hneq.
Qed.

End Switches.

(** X1. Only [to_static] and [to_dynamic] ever re-bind an attribute of
    the instance: every other public call, and [export] and [assign] on
    the instance, leaves all of its attributes as they were, whether it
    returns or raises. *)
Theorem only_the_switches_change_the_instance :
  forall (B : DynamicVariable.Backend) (c : Interface.Call) (st : DynamicVariable.St),
    Lifecycle.switches c = false ->
    fst (Interface.perform c st) = fst st.
Proof. intros B c st Hc. apply perform_reads_only. exact Hc. Qed.

Lemma only_the_switches_change_the_instance_witness :
  fst (@Interface.perform Recorder.recorder
         (Interface.call_scatter_add Recorder.some_delta (PyBool false) PyNone)
         (Recorder.started None))
  = Recorder.variable None.
Proof.
  exact (only_the_switches_change_the_instance Recorder.recorder
           (Interface.call_scatter_add Recorder.some_delta (PyBool false) PyNone)
           (Recorder.started None) eq_refl).
Defined.

(** X2. The mode switches are all-or-nothing on the instance.  After
    [to_static(indices)] the instance is either untouched, and the call
    has raised, or it was dynamic with nothing pending, [indices] has a
    [dtype], and both [_indices] and the active handle are re-bound.
    After [to_dynamic()] the instance is either untouched, and the call
    has raised, or it was static and both attributes are re-bound.  An
    index set is never recorded without the handle being switched. *)
Theorem mode_switch_is_all_or_nothing :
  forall (B : DynamicVariable.Backend) (indices : PyVal) (st : DynamicVariable.St),
    ((fst (snd (DynamicVariable.to_static indices st)) = fst st /\
      exists e, fst (DynamicVariable.to_static indices st) = Raise e) \/
     (DynamicVariable.is_static (fst st) = false /\
      DynamicVariable._indices (fst st) = PyNone /\
      Lifecycle.has_dtype indices /\
      fst (snd (DynamicVariable.to_static indices st))
      = Lifecycle.made_static indices (fst st))) /\
    ((fst (snd (DynamicVariable.to_dynamic st)) = fst st /\
      exists e, fst (DynamicVariable.to_dynamic st) = Raise e) \/
     (DynamicVariable.is_static (fst st) = true /\
      fst (snd (DynamicVariable.to_dynamic st)) = Lifecycle.made_dynamic (fst st))).
Proof.
  intros B indices st. split.
  - apply to_static_effect.
  - apply to_dynamic_effect.
Qed.

(** X3. On every instance, however it has been used since it was built,
    an index set is recorded exactly while the instance is static, and
    what is recorded then has a [dtype]: [to_dynamic] never scatters
    with [None] for indices. *)
Theorem indices_recorded_exactly_while_static :
  forall (B : DynamicVariable.Backend) dimension initializer var_type name constraint
         trainable key_type dtype mode fresh w self w' (calls : list Interface.Call),
    DynamicVariable.__init__ dimension initializer var_type name constraint trainable
      key_type dtype mode fresh w = (Ok self, w') ->
    let now := fst (Interface.run calls (self, w')) in
    (DynamicVariable.is_static now = true <-> DynamicVariable._indices now <> PyNone) /\
    (DynamicVariable.is_static now = true -> Lifecycle.has_dtype (DynamicVariable._indices now)).
Proof.
  intros B dimension initializer var_type name constraint trainable key_type dtype mode
    fresh w self w' calls Hinit now.
  pose proof (init_binds _ _ _ _ _ _ _ _ _ _ _ _ _ Hinit)
    as (_ & _ & _ & Hnone & _ & Htf & Hdummy & Hactive).
  assert (Hneq : DynamicVariable._tf_handle self <> DynamicVariable._dummy_handle self)
    by (rewrite Htf, Hdummy; apply Nat.neq_succ_diag_r).
  assert (Hset : Lifecycle.settled now).
  { apply (run_settled self calls Hneq); simpl.
    - apply anchored_refl. congruence.
    - split; [ | intros _; exact Hnone ].
      intro Hs. apply is_static_true in Hs. congruence. }
  destruct Hset as [Hstatic Hdynamic]. split; [ split | exact Hstatic ].
  - intro Hs. apply has_dtype_not_None. apply Hstatic. exact Hs.
  - intro Hpending. destruct (DynamicVariable.is_static now) eqn:Hs; [ reflexivity | ].
    exfalso. apply Hpending. apply Hdynamic. reflexivity.
Qed.

Lemma indices_recorded_exactly_while_static_witness :
  let now := fst (@Interface.run Recorder.recorder
                    [Interface.call_to_static PyNone;
                     Interface.call_to_static Recorder.some_indices;
                     Interface.call_to_static Recorder.some_indices]
                    (Recorder.started None)) in
  (DynamicVariable.is_static now = true <-> DynamicVariable._indices now <> PyNone) /\
  (DynamicVariable.is_static now = true -> Lifecycle.has_dtype (DynamicVariable._indices now)).
Proof.
  exact (indices_recorded_exactly_while_static Recorder.recorder
           16 PyNone None None PyNone true None None None 0%nat Recorder.boot
           (Recorder.variable None) (snd (Recorder.fresh_variable None))
           [Interface.call_to_static PyNone;
            Interface.call_to_static Recorder.some_indices;
            Interface.call_to_static Recorder.some_indices] eq_refl).
Defined.

(** X4. [to_static(indices)] on a dynamic instance with nothing pending
    first reads the rows at [indices] from the native store, the
    instance still dynamic; if the read raises, the call ends there and
    the instance is untouched.  Otherwise it records [indices],
    activates the base class's handle and hands what was read to the
    base class's [assign]; the instance stays static even if that
    [assign] fails. *)
Theorem to_static_reads_then_assigns :
  forall (B : DynamicVariable.Backend) (indices : PyVal) (st : DynamicVariable.St),
    DynamicVariable.is_static (fst st) = false ->
    DynamicVariable._indices (fst st) = PyNone ->
    DynamicVariable.to_static indices st =
    match Spec.native_read (fst st) indices st with
    | (Ok buffer, (_, w1)) =>
        let self := Lifecycle.made_static indices (fst st) in
        let (r, w2) := DynamicVariable.base_call "assign" self (args [buffer]) w1 in
        (of_reply r, (self, w2))
    | (Raise e, (_, w1)) => (Raise e, (fst st, w1))
    end.
Proof.
  intros B indices st Hdyn Hnone.
  rewrite (to_static_dynamic indices st Hdyn Hnone).
  destruct (sparse_read_dynamic indices PyNone st Hdyn) as (o & w1 & Hread & _).
  rewrite <- (sparse_read_is_native_read indices PyNone st Hdyn), Hread.
  destruct o as [buffer | e]; [ | reflexivity ].
  unfold DynamicVariable.base. rewrite bind_get_self. cbn [fst]. unfold DynamicVariable.ext.
  cbn [fst snd]. unfold Lifecycle.made_static.
  destruct (DynamicVariable.base_call "assign"
              (DynamicVariable.set_handle (DynamicVariable._tf_handle (fst st))
                 (DynamicVariable.set_indices indices (fst st))) (args [buffer]) w1);
    reflexivity.
Qed.

Lemma to_static_reads_then_assigns_witness :
  @DynamicVariable.to_static Recorder.recorder Recorder.some_indices (Recorder.started None)
  = (Ok (PyTensor tf_float32 8),
     (Lifecycle.made_static Recorder.some_indices (Recorder.variable None),
      snd Recorder.switched)).
Proof.
  rewrite (to_static_reads_then_assigns Recorder.recorder Recorder.some_indices
             (Recorder.started None) eq_refl eq_refl).
  reflexivity.
Defined.

Lemma scatter_sub_is_scatter_add_of_negation_witness :
  @DynamicVariable.scatter_sub Recorder.recorder Recorder.some_delta (PyBool false) PyNone
    (Recorder.started None)
  = @DynamicVariable.scatter_add Recorder.recorder
      (PyIndexedSlices (PyTensor tf_float32 6) Recorder.some_indices PyNone) (PyBool false) PyNone
      (Recorder.variable None, Recorder.noted "neg" (snd (Recorder.fresh_variable None))).
Proof.
  exact (scatter_sub_is_scatter_add_of_negation Recorder.recorder
           (Recorder.variable None) (snd (Recorder.fresh_variable None))
           (Recorder.noted "neg" (snd (Recorder.fresh_variable None)))
           (PyTensor tf_float32 101) (PyTensor tf_float32 6) Recorder.some_indices PyNone
           (PyBool false) PyNone eq_refl eq_refl).
Defined.

(** X6. Whatever [target_gpu] returns is [-1] or lies below
    [num_gpus()]: an index at or above the number of GPUs is never
    returned. *)
Theorem target_gpu_is_below_the_gpu_count :
  forall (B : DynamicVariable.Backend) (st : DynamicVariable.St) (g : Z),
    fst (DynamicVariable.target_gpu st) = Ok g ->
    g = -1 \/ g < DynamicVariable.communication_num_gpus (snd st).
Proof.
  intros B st g. unfold DynamicVariable.target_gpu. rewrite bind_get_self.
  destruct (DynamicVariable._mode (fst st)) as [mode | ];
    [ | intro H; injection H as <-; left; reflexivity ].
  destruct (String.prefix "localized" mode);
    [ | intro H; injection H as <-; left; reflexivity ].
  destruct (nth_error (split ":" mode) 1) as [field | ]; [ | discriminate ].
  destruct (DynamicVariable.builtin_int field) as [asked | message]; [ | discriminate ].
  unfold DynamicVariable.num_gpus, bind. cbn [fst snd].
  destruct (asked >=? DynamicVariable.communication_num_gpus (snd st)) eqn:Hcmp;
    [ discriminate | ].
  intro H. injection H as <-. right.
  destruct (Z.ltb_spec asked (DynamicVariable.communication_num_gpus (snd st))) as [Hl | Hl];
    [ exact Hl | ].
  apply Z.geb_le in Hl. congruence.
Qed.

Lemma target_gpu_is_below_the_gpu_count_witness :
  (0 = -1 \/ 0 < 2) /\ (-3 = -1 \/ -3 < 2).
Proof.
  split.
  - exact (target_gpu_is_below_the_gpu_count Recorder.recorder
             (Recorder.started (Some "localized:0")) 0 eq_refl).
  - exact (target_gpu_is_below_the_gpu_count Recorder.recorder
             (Recorder.started (Some "localized: -3 :x")) (-3) eq_refl).
Defined.

(** ** The calls of the session smoke test *)

Section Watching.
Import session_test.
Variable api : SessionApi.

Lemma initial_refl (l : list Event) : initial l l.
Proof. exists []. symmetry. apply app_nil_r. Qed.

Lemma initial_app (l done all : list Event) :
  initial done all -> initial (l ++ done)%list (l ++ all)%list.
Proof. intros [rest ->]. exists rest. apply app_assoc. Qed.

Lemma initial_widen (done all more : list Event) :
  initial done all -> initial done (all ++ more)%list.
Proof. intros [rest ->]. exists (rest ++ more)%list. symmetry. apply app_assoc. Qed.

Lemma makes_ret {A} (a : A) : makes api (ret a) [].
Proof.
  intros w log. exists []. repeat split.
  apply initial_refl.
Qed.

Lemma makes_watched {A} (e : Event) (f : External (@Host api) A) :
  makes api (foreign (watched e f)) [e].
Proof.
  intros w log. exists [e]. unfold foreign, watched. cbn [fst snd].
  destruct (f w) as [r w']. repeat split. apply initial_refl.
Qed.

Lemma makes_bind {A C} (m : M (@Host (watching api)) A) (k : A -> M (@Host (watching api)) C)
    (first next : list Event) :
  makes api m first -> (forall a, makes api (k a) next) ->
  makes api (bind m k) (first ++ next)%list.
Proof.
  intros Hm Hk w log. unfold bind.
  destruct (Hm w log) as (d1 & Hlog1 & Hinit1 & Hall1).
  destruct (m (w, log)) as [[a | e] [w1 log1]]; cbn [fst snd] in *.
  - specialize (Hall1 a eq_refl). subst d1.
    destruct (Hk a w1 log1) as (d2 & Hlog2 & Hinit2 & Hall2).
    exists (first ++ d2)%list. split; [ | split ].
    + rewrite Hlog2, Hlog1, rev_app_distr. apply app_assoc.
    + apply initial_app. exact Hinit2.
    + intros c Hc. rewrite (Hall2 c Hc). reflexivity.
  - exists d1. split; [ exact Hlog1 | split ].
    + apply initial_widen. exact Hinit1.
    + intros c Hc. discriminate Hc.
Qed.

Lemma makes_iteration (sess : PyVal) (i : Z) :
  makes api (@iteration (watching api) sess i) (calls_of_iteration i).
Proof.
  unfold iteration, calls_of_iteration.
  apply makes_bind; [ apply (makes_watched called_train) | intros _ ].
  apply makes_bind; [ | intros _ ].
  - destruct (i mod 100 =? 0); [ | apply makes_ret ].
    apply (makes_bind _ _ [called_get_current_loss] [called_print]).
    + apply (makes_watched called_get_current_loss).
    + intro loss. apply (makes_watched called_print).
  - destruct ((i mod 1000 =? 0) && negb (i =? 0)); [ | apply makes_ret ].
    apply (makes_bind _ _ [called_evaluation] [called_print]).
    + apply (makes_watched called_evaluation).
    + intro metrics. apply (makes_watched called_print).
Qed.

Lemma makes_for_each (sess : PyVal) (items : list Z) :
  makes api (for_each (@iteration (watching api) sess) items) (calls_of items).
Proof.
  induction items as [| i items IH].
  - apply makes_ret.
  - apply (makes_bind (@iteration (watching api) sess i)
             (fun _ => for_each (@iteration (watching api) sess) items)
             (calls_of_iteration i) (calls_of items));
      [ apply makes_iteration | intros _; exact IH ].
Qed.

Lemma makes_session_impl_test :
  makes api (@session_impl_test (watching api))
    (called_solver_parser_helper :: called_Session :: calls_of (range 10000)).
Proof.
  unfold session_impl_test.
  apply (makes_bind _ _ [called_solver_parser_helper] (called_Session :: calls_of (range 10000)));
    [ apply (makes_watched called_solver_parser_helper) | intro solver_config ].
  apply (makes_bind _ _ [called_Session] (calls_of (range 10000)));
    [ apply (makes_watched called_Session) | intro sess ].
  apply makes_for_each.
Qed.

Lemma times_rev (e : Event) (l : list Event) : times e (rev l) = times e l.
Proof.
  unfold times. induction l as [| x l IH]; simpl; [ reflexivity | ].
  rewrite filter_app, length_app, IH. simpl.
  destruct (Event_eqb e x); simpl; lia.
Qed.

End Watching.

Section Schedule.
Import session_test.

Lemma times_app (e : Event) (a b : list Event) :
  times e (a ++ b)%list = (times e a + times e b)%nat.
Proof. unfold times. rewrite filter_app, length_app. reflexivity. Qed.

Lemma times_cons (e x : Event) (l : list Event) :
  times e (x :: l) = ((if Event_eqb e x then 1 else 0) + times e l)%nat.
Proof. unfold times. simpl. destruct (Event_eqb e x); reflexivity. Qed.

(** An initial part that contains [x] contains all that precedes the
    first [x]. *)
Lemma initial_reaches (x : Event) (pre post : list Event) :
  times x pre = 0%nat ->
  forall done,
    initial done (pre ++ x :: post)%list -> times x done <> 0%nat ->
    exists more, done = (pre ++ x :: more)%list.
Proof.
  induction pre as [| p pre IH]; intros Hpre done [rest Hall] Hdone.
  - destruct done as [| y done]; [ contradiction Hdone; reflexivity | ].
    simpl in Hall. injection Hall as <- _. exists done. reflexivity.
  - destruct done as [| y done]; [ contradiction Hdone; reflexivity | ].
    simpl in Hall. injection Hall as <- Hall.
    rewrite times_cons in Hpre, Hdone.
    destruct (Event_eqb x p); [ discriminate Hpre | ]. simpl in Hpre, Hdone.
    destruct (IH Hpre done (ex_intro _ rest Hall) Hdone) as [more ->].
    exists more. reflexivity.
Qed.

(** Where the first [evaluation] stands among the calls of a whole run. *)
Lemma first_evaluation_position :
  exists before after,
    called_solver_parser_helper :: called_Session :: calls_of (range 10000)
    = (before ++ called_evaluation :: after)%list /\
    times called_evaluation before = 0%nat /\
    Z.of_nat (times called_train before) = 1001.
Proof.
  exists (firstn 1025 (called_solver_parser_helper :: called_Session :: calls_of (range 10000))).
  exists (skipn 1026 (called_solver_parser_helper :: called_Session :: calls_of (range 10000))).
  split; [ | split ]; vm_compute; reflexivity.
Qed.

Lemma watched_log (api : SessionApi) (w : @Host api) :
  exists done,
    rev (snd (snd (@session_impl_test (watching api) (w, [])))) = done /\
    initial done (called_solver_parser_helper :: called_Session :: calls_of (range 10000)) /\
    (fst (@session_impl_test (watching api) (w, [])) = Ok tt ->
     done = called_solver_parser_helper :: called_Session :: calls_of (range 10000)).
Proof.
  destruct (makes_session_impl_test api w []) as (done & Hlog & Hinit & Hall).
  exists done. split; [ | split ].
  - rewrite Hlog, app_nil_r. apply rev_involutive.
  - exact Hinit.
  - apply Hall.
Qed.

End Schedule.

(** X7. Against any implementation of the session API,
    [session_impl_test] makes its calls in one fixed order: the solver
    configuration, the session, then per iteration [train], on every
    100th iteration [get_current_loss] and a [print], and on every
    1000th iteration but the first [evaluation] and a [print].  A run
    that raises has made an initial part of these calls and no other; a
    run that returns has made them all. *)
Theorem session_impl_test_calls_in_order :
  forall (api : session_test.SessionApi) (w : @session_test.Host api),
    let outcome := @session_test.session_impl_test (session_test.watching api) (w, []) in
    let made := rev (snd (snd outcome)) in
    let all :=
      session_test.called_solver_parser_helper :: session_test.called_Session
        :: session_test.calls_of (session_test.range 10000) in
    session_test.initial made all /\ (fst outcome = Ok tt -> made = all).
Proof.
  intros api w outcome made all.
  destruct (watched_log api w) as (done & Hmade & Hinit & Hall).
  subst outcome made all. rewrite Hmade. split; assumption.
Qed.

(** X8. A run of [session_impl_test] that returns has called [train]
    10000 times, [get_current_loss] 100 times and [evaluation] 9 times
    (iteration 0 is left out), and has printed 109 times. *)
Theorem session_impl_test_call_counts :
  forall (api : session_test.SessionApi) (w : @session_test.Host api),
    let outcome := @session_test.session_impl_test (session_test.watching api) (w, []) in
    let made := snd (snd outcome) in
    fst outcome = Ok tt ->
    Z.of_nat (session_test.times session_test.called_train made) = 10000 /\
    Z.of_nat (session_test.times session_test.called_get_current_loss made) = 100 /\
    Z.of_nat (session_test.times session_test.called_evaluation made) = 9 /\
    Z.of_nat (session_test.times session_test.called_print made) = 109.
Proof.
  intros api w outcome made Hok.
  destruct (watched_log api w) as (done & Hmade & _ & Hall).
  specialize (Hall Hok).
  assert (Hrev : made = rev done).
  { subst made outcome. rewrite <- Hmade. symmetry. apply rev_involutive. }
  rewrite Hrev, !times_rev, Hall. vm_compute. repeat split.
Qed.

Lemma session_impl_test_call_counts_witness :
  let made :=
    snd (snd (@session_test.session_impl_test (session_test.watching session_test.steady)
                (0%nat, []))) in
  Z.of_nat (session_test.times session_test.called_train made) = 10000 /\
  Z.of_nat (session_test.times session_test.called_get_current_loss made) = 100 /\
  Z.of_nat (session_test.times session_test.called_evaluation made) = 9 /\
  Z.of_nat (session_test.times session_test.called_print made) = 109.
Proof.
  apply (session_impl_test_call_counts session_test.steady 0%nat).
  vm_compute. reflexivity.
Defined.

(** X9. However a run of [session_impl_test] ends, if [evaluation] was
    called at all then [train] had been called 1001 times before the
    first call of [evaluation]. *)
Theorem evaluation_waits_for_1001_training_steps :
  forall (api : session_test.SessionApi) (w : @session_test.Host api),
    let made :=
      snd (snd (@session_test.session_impl_test (session_test.watching api) (w, []))) in
    session_test.times session_test.called_evaluation made <> 0%nat ->
    exists before after,
      rev made = (before ++ session_test.called_evaluation :: after)%list /\
      session_test.times session_test.called_evaluation before = 0%nat /\
      Z.of_nat (session_test.times session_test.called_train before) = 1001.
Proof.
  intros api w made Heval.
  destruct (watched_log api w) as (done & Hmade & Hinit & _).
  fold made in Hmade. rewrite Hmade.
  assert (Hdone : session_test.times session_test.called_evaluation done <> 0%nat).
  { rewrite <- Hmade, times_rev. exact Heval. }
  destruct first_evaluation_position as (before & after & Hall & Hnone & Htrain).
  rewrite Hall in Hinit.
  destruct (initial_reaches session_test.called_evaluation before after Hnone done Hinit Hdone)
    as [more ->].
  exists before, more. split; [ reflexivity | split; [ exact Hnone | exact Htrain ] ].
Qed.

Lemma evaluation_waits_for_1001_training_steps_witness :
  exists before after,
    rev (snd (snd (@session_test.session_impl_test (session_test.watching session_test.steady)
                     (0%nat, []))))
    = (before ++ session_test.called_evaluation :: after)%list /\
    session_test.times session_test.called_evaluation before = 0%nat /\
    Z.of_nat (session_test.times session_test.called_train before) = 1001.
Proof.
  apply (evaluation_waits_for_1001_training_steps session_test.steady 0%nat).
  vm_compute. discriminate.
Defined.
